(** * Recorder database schema (homeassistant/components/recorder/db_schema.py)

    A shallow embedding of the row classes of the recorder and of the
    conversions between native objects and rows, followed by the properties
    the specification states about them.

    Conventions.
    - A timezone-aware [datetime] is identified with its instant, counted in
      microseconds since the epoch; [==] and [<] on aware datetimes compare
      instants.
    - A timestamp column holds a binary64 float; a nullable column is an
      [option]. The [entity_id] attribute of a states row holds whatever
      object was assigned to it.
    - A call that may raise returns a [result]; code that also logs runs in
      [M], which pairs the result with the records handed to [_LOGGER].
    - What db_schema.py imports from other modules (homeassistant.core,
      homeassistant.helpers.json, homeassistant.util.dt, recorder.const) is
      gathered in the class [Platform]: the module is verified against any
      implementation of these imports. *)

From Stdlib Require Import ZArith List String Ascii Lia PrimFloat Uint63.
From Stdlib Require Import FloatAxioms.
From Stdlib Require Import DecimalString.
From Stdlib Require Import Strings.Byte.
From stdpp Require Import base strings gmap.
Import ListNotations.

Local Open Scope string_scope.
Local Open Scope list_scope.

(** ** Python-level plumbing *)

Definition datetime : Type := Z.
Definition bytes : Type := list byte.

Inductive exn : Type :=
| KeyError
| TypeError
| AttributeError
| IndexError
| ValueError
| OverflowError
| AssertionError
| JSONDecodeError
| IntegrityError
| OtherError (name : string).

Inductive result (A : Type) : Type :=
| Ok (a : A)
| Raise (e : exn).
Arguments Ok {A} a.
Arguments Raise {A} e.

(** A record handed to [_LOGGER]: the method used and the format string. *)
Inductive log_record : Type :=
| LogException (msg : string)
| LogWarning (msg : string).

Definition M (A : Type) : Type := (result A * list log_record)%type.

Definition ret {A} (a : A) : M A := (Ok a, []).
Definition raise {A} (e : exn) : M A := (Raise e, []).
Definition lift {A} (r : result A) : M A := (r, []).
Definition log (r : log_record) : M unit := (Ok tt, [r]).

Definition bind {A B} (m : M A) (f : A -> M B) : M B :=
  match m with
  | (Ok a, l) => let (r, l') := f a in (r, l ++ l')
  | (Raise e, l) => (Raise e, l)
  end.

(** [try: body except handled: handler] *)
Definition try_except {A} (body : M A) (handled : exn -> bool) (handler : M A)
  : M A :=
  match body with
  | (Raise e, l) =>
      if handled e then let (r, l') := handler in (r, l ++ l') else (Raise e, l)
  | done => done
  end.

Declare Scope py_scope.
Delimit Scope py_scope with py.
Notation "x <- c1 ;; c2" := (bind c1 (fun x => c2))
  (at level 100, c1 at next level, right associativity) : py_scope.
Notation "c1 ;; c2" := (bind c1 (fun _ => c2))
  (at level 100, right associativity) : py_scope.

(** Truth value of a [str | None] column: [None] and the empty string are falsy. *)
Definition truthy_str (s : option string) : bool :=
  match s with
  | Some EmptyString | None => false
  | Some _ => true
  end.

(** Truth value of a [float | None] column: [None], [0.0] and [-0.0] are falsy. *)
Definition truthy_float (t : option float) : bool :=
  match t with
  | Some f => negb (PrimFloat.eqb f 0%float)
  | None => false
  end.

(** [l[i]] on a Python list: a negative index counts from the end. *)
Definition list_getitem {A} (l : list A) (i : option Z) : result A :=
  match i with
  | None => Raise TypeError
  | Some i =>
      let n := Z.of_nat (length l) in
      let j := if (i <? 0)%Z then (i + n)%Z else i in
      if ((0 <=? j) && (j <? n))%Z then
        match nth_error l (Z.to_nat j) with
        | Some a => Ok a
        | None => Raise IndexError
        end
      else Raise IndexError
  end.

(** A dict whose keys have decidable equality, in insertion order. *)
Section Dict.
Context {K V : Type} `{EqDecision K}.

Fixpoint dict_get (d : list (K * V)) (k : K) : option V :=
  match d with
  | [] => None
  | (k', v) :: d' => if decide (k' = k) then Some v else dict_get d' k
  end.

Fixpoint dict_set (d : list (K * V)) (k : K) (v : V) : list (K * V) :=
  match d with
  | [] => [(k, v)]
  | (k', v') :: d' =>
      if decide (k' = k) then (k', v) :: d' else (k', v') :: dict_set d' k v
  end.
End Dict.

Fixpoint enumerate_from {A} (start : Z) (l : list A) : list (Z * A) :=
  match l with
  | [] => []
  | a :: l' => (start, a) :: enumerate_from (start + 1)%Z l'
  end.
Definition enumerate {A} (l : list A) : list (Z * A) := enumerate_from 0%Z l.

(** Two floats are the same object when they have the same bits. *)
#[global] Instance float_eq_dec : EqDecision float.
Proof.
  intros x y. destruct (PrimFloat.Leibniz.eqb x y) eqn:Hbits.
  - left. apply FloatAxioms.Leibniz.eqb_spec. exact Hbits.
  - right. intros Heq. apply FloatAxioms.Leibniz.eqb_spec in Heq. congruence.
Defined.

(** ** homeassistant.core: the native objects *)

Module core.

Inductive EventOrigin : Type := local | remote.

(** What sits in an event's [origin] attribute. It is annotated
    [EventOrigin]; Python does not enforce the annotation, so any other
    object, named by its repr, can be there: a hashable one ([Foreign]:
    [None], a string, a number) or one that cannot be hashed ([Unhashable]:
    a list, a dict, a set). *)
Inductive origin_value : Type :=
| Member (o : EventOrigin)
| Foreign (repr : string)
| Unhashable (repr : string).

Record Context : Type := mkContext {
  id : option string;
  user_id : option string;
  parent_id : option string;
}.

Record StateOf (V : Type) : Type := mkState {
  entity_id : string;
  state : string;
  attributes : list (string * V);
  last_changed : datetime;
  last_updated : datetime;
  context : Context;
}.
Arguments mkState {V}.
Arguments entity_id {V}.
Arguments state {V}.
Arguments attributes {V}.
Arguments last_changed {V}.
Arguments last_updated {V}.
Arguments context {V}.

(** Values found in event data and state attributes. *)
#[warnings="-register-all"]
Inductive PyVal : Type :=
| PNone
| PBool (b : bool)
| PInt (z : Z)
| PFloat (f : float)
| PStr (s : string)
| PList (l : list PyVal)
| PDict (d : list (string * PyVal))
| PState (s : StateOf PyVal).

Definition State : Type := StateOf PyVal.

Record Event : Type := mkEvent {
  event_type : option string;
  data : PyVal;
  origin : origin_value;
  time_fired : datetime;
  event_context : Context;
}.

#[global] Instance EventOrigin_eq_dec : EqDecision EventOrigin.
Proof. solve_decision. Defined.
#[global] Instance origin_value_eq_dec : EqDecision origin_value.
Proof. solve_decision. Defined.
#[global] Instance Context_eq_dec : EqDecision Context.
Proof. solve_decision. Defined.

(** Equality of two values, decided structurally. *)
Fixpoint PyVal_eqb (a b : PyVal) {struct a} : bool :=
  match a, b with
  | PNone, PNone => true
  | PBool x, PBool y => bool_decide (x = y)
  | PInt x, PInt y => bool_decide (x = y)
  | PFloat x, PFloat y => bool_decide (x = y)
  | PStr x, PStr y => bool_decide (x = y)
  | PList l, PList l' =>
      (fix items (l l' : list PyVal) {struct l} : bool :=
         match l, l' with
         | [], [] => true
         | x :: l, y :: l' => PyVal_eqb x y && items l l'
         | _, _ => false
         end) l l'
  | PDict d, PDict d' =>
      (fix items (d d' : list (string * PyVal)) {struct d} : bool :=
         match d, d' with
         | [], [] => true
         | (k, x) :: d, (k', y) :: d' =>
             bool_decide (k = k') && PyVal_eqb x y && items d d'
         | _, _ => false
         end) d d'
  | PState (mkState e st attrs changed updated ctx),
    PState (mkState e' st' attrs' changed' updated' ctx') =>
      bool_decide (e = e') && bool_decide (st = st')
      && (fix items (d d' : list (string * PyVal)) {struct d} : bool :=
            match d, d' with
            | [], [] => true
            | (k, x) :: d, (k', y) :: d' =>
                bool_decide (k = k') && PyVal_eqb x y && items d d'
            | _, _ => false
            end) attrs attrs'
      && bool_decide (changed = changed') && bool_decide (updated = updated')
      && bool_decide (ctx = ctx')
  | _, _ => false
  end.

Lemma PyVal_eqb_eq (a b : PyVal) : PyVal_eqb a b = true -> a = b.
Proof.
  revert a b. fix IH 1. intros a b.
  assert (Hitems : forall d d' : list (string * PyVal),
             (forall x, In x (map snd d) -> forall y, PyVal_eqb x y = true -> x = y) ->
             (fix items (d d' : list (string * PyVal)) {struct d} : bool :=
                match d, d' with
                | [], [] => true
                | (k, x) :: d, (k', y) :: d' =>
                    bool_decide (k = k') && PyVal_eqb x y && items d d'
                | _, _ => false
                end) d d' = true -> d = d').
  { clear. induction d as [| [k x] d IHd]; intros [| [k' y] d'] Hsub Heq;
      try discriminate; [reflexivity |].
    apply andb_true_iff in Heq. destruct Heq as [Heq Hrest].
    apply andb_true_iff in Heq. destruct Heq as [Hk Hx].
    apply bool_decide_eq_true in Hk. subst k'.
    rewrite (Hsub x (or_introl eq_refl) y Hx).
    rewrite (IHd d' (fun z Hz => Hsub z (or_intror Hz)) Hrest). reflexivity. }
  destruct a as [| x | x | x | x | l | d | s], b as [| y | y | y | y | l' | d' | s'];
    try discriminate; try reflexivity;
    try (destruct s; discriminate).
  - cbn. intros Heq. apply bool_decide_eq_true in Heq. congruence.
  - cbn. intros Heq. apply bool_decide_eq_true in Heq. congruence.
  - cbn. intros Heq. apply bool_decide_eq_true in Heq. congruence.
  - cbn. intros Heq. apply bool_decide_eq_true in Heq. congruence.
  - cbn. intros Heq. f_equal. revert l' Heq.
    induction l as [| x l IHl]; intros [| y l'] Heq; try discriminate;
      [reflexivity |].
    apply andb_true_iff in Heq. destruct Heq as [Hx Hrest].
    rewrite (IH x y Hx), (IHl l' Hrest). reflexivity.
  - cbn. intros Heq. f_equal. apply Hitems; [| exact Heq].
    clear Heq. induction d as [| [k x] d IHd]; [intros ? [] |].
    intros z [<- | Hz]; [apply IH | apply IHd; exact Hz].
  - destruct s as [e st attrs changed updated ctx],
             s' as [e' st' attrs' changed' updated' ctx'].
    cbn. intros Heq.
    repeat (apply andb_true_iff in Heq; destruct Heq as [Heq ?]).
    repeat match goal with
           | Hb : bool_decide _ = true |- _ => apply bool_decide_eq_true in Hb
           end.
    subst.
    do 2 f_equal. apply Hitems; [| assumption].
    clear -IH. induction attrs as [| [k x] d IHd]; [intros ? [] |].
    intros z [<- | Hz]; [apply IH | apply IHd; exact Hz].
Qed.

Lemma PyVal_eqb_refl (a : PyVal) : PyVal_eqb a a = true.
Proof.
  revert a. fix IH 1. intros a.
  destruct a as [| x | x | x | x | l | d | s]; cbn;
    rewrite ?bool_decide_eq_true_2 by reflexivity; try reflexivity.
  - induction l as [| x l IHl]; [reflexivity |]. rewrite IH, IHl. reflexivity.
  - induction d as [| [k x] d IHd]; [reflexivity |].
    rewrite bool_decide_eq_true_2 by reflexivity. rewrite IH, IHd. reflexivity.
  - destruct s as [e st attrs changed updated ctx]. cbn.
    rewrite !bool_decide_eq_true_2 by reflexivity. cbn.
    rewrite !andb_true_r.
    induction attrs as [| [k x] d IHd]; [reflexivity |].
    rewrite bool_decide_eq_true_2 by reflexivity. rewrite IH, IHd. reflexivity.
Qed.

#[global] Instance PyVal_eq_dec : EqDecision PyVal.
Proof.
  intros a b. destruct (PyVal_eqb a b) eqn:Heq.
  - left. apply PyVal_eqb_eq. exact Heq.
  - right. intros ->. rewrite PyVal_eqb_refl in Heq. discriminate.
Defined.

(** [d[key]] and [d.get(key)] on whatever object [d] is. *)
Definition getitem (d : PyVal) (key : string) : result PyVal :=
  match d with
  | PDict kv =>
      match dict_get kv key with
      | Some v => Ok v
      | None => Raise KeyError
      end
  | _ => Raise TypeError
  end.

Definition get (d : PyVal) (key : string) : result PyVal :=
  match d with
  | PDict kv => Ok (default PNone (dict_get kv key))
  | _ => Raise AttributeError
  end.

End core.

(** recorder.const.SupportedDialect *)
Inductive SupportedDialect : Type := MYSQL | POSTGRESQL | SQLITE.
#[global] Instance SupportedDialect_eq_dec : EqDecision SupportedDialect.
Proof. solve_decision. Defined.

(** ** The imports of db_schema.py *)

Class Platform : Type := {
  (** homeassistant.util.dt *)
  utc_to_timestamp : datetime -> float;
  utc_from_timestamp : option float -> result datetime;
  (** homeassistant.helpers.json *)
  json_loads : option string -> result core.PyVal;
  json_bytes : core.PyVal -> result bytes;
  JSON_DECODE_EXCEPTIONS : exn -> bool;
  (** homeassistant.core: [EventOrigin(value)], [split_entity_id], what
      [State.__init__] makes of its [entity_id], [state] and [attributes]
      arguments under [validate_entity_id], and the identifier
      [ulid_util.ulid()] hands to a [Context] built without one *)
  EventOrigin_of_value : string -> result core.EventOrigin;
  split_entity_id : string -> result (string * string);
  State_init : core.PyVal -> option string -> core.PyVal -> bool ->
               result (string * string * list (string * core.PyVal));
  ulid : string;
  (** recorder.const *)
  ALL_DOMAIN_EXCLUDE_ATTRS : gset string;
}.

(** ** Module constants *)

Definition MAX_STATE_ATTRS_BYTES : Z := 16384.
Definition PSQL_DIALECT : SupportedDialect := POSTGRESQL.

Definition EVENT_ORIGIN_ORDER : list core.EventOrigin := [core.local; core.remote].

(** [{origin: idx for idx, origin in enumerate(EVENT_ORIGIN_ORDER)}] *)
Definition EVENT_ORIGIN_TO_IDX : list (core.origin_value * Z) :=
  fold_left (fun d '(idx, origin) => dict_set d (core.Member origin) idx)
            (enumerate EVENT_ORIGIN_ORDER) [].

(** [EVENT_ORIGIN_TO_IDX.get(origin)]: the key is hashed before it is
    looked up, and an object that cannot be hashed raises [TypeError]; a
    hashable key that is not in the dict gives [None]. *)
Definition EVENT_ORIGIN_TO_IDX_get (origin : core.origin_value)
  : result (option Z) :=
  match origin with
  | core.Unhashable _ => Raise TypeError
  | _ => Ok (dict_get EVENT_ORIGIN_TO_IDX origin)
  end.

(** [Context(id=..., user_id=..., parent_id=...)] of homeassistant.core: the
    constructor keeps an id that is not empty, and gives a context built
    with a null or empty id a newly drawn ULID. A platform stands for one
    draw; nothing below compares two draws. *)
Definition Context_init `{Platform} (id user_id parent_id : option string)
  : core.Context :=
  core.mkContext (if truthy_str id then id else Some ulid) user_id parent_id.

(** [b"{}"] *)
Definition empty_object_bytes : bytes := [x7b; x7d]%byte.

(** [len(b)] *)
Definition len (b : bytes) : Z := Z.of_nat (length b).

(** Dropping every key whose value is [None], in a dict and in the dicts
    nested in it. *)
Fixpoint strip_null (v : core.PyVal) : core.PyVal :=
  match v with
  | core.PDict d =>
      core.PDict
        ((fix strip_items (kv : list (string * core.PyVal)) :=
            match kv with
            | [] => []
            | (k, core.PNone) :: kv' => strip_items kv'
            | (k, x) :: kv' => (k, strip_null x) :: strip_items kv'
            end) d)
  | core.PList l => core.PList (map strip_null l)
  | _ => v
  end.

(** [v is None] *)
Definition is_none (v : core.PyVal) : bool :=
  match v with
  | core.PNone => true
  | _ => false
  end.

(** Modelled from the spec: [json_bytes_strip_null] of
    homeassistant.helpers.json, whose source is not part of this module.
    Section 4.3 of the specification: the strip-null variant is the canonical
    encoding that omits any key whose value is null. *)
Definition json_bytes_strip_null `{Platform} (v : core.PyVal) : result bytes :=
  json_bytes (strip_null v).

(** ** class EventData *)

Module EventData.

Record row : Type := mkrow {
  data_id : option Z;
  hash : option Z;
  shared_data : option string;
}.

Section with_platform.
Context `{Platform}.

Definition shared_data_bytes_from_event
    (event : core.Event) (dialect : option SupportedDialect) : result bytes :=
  if decide (dialect = Some POSTGRESQL)
  then json_bytes_strip_null (core.data event)
  else json_bytes (core.data event).

Definition to_native (self : row) : M core.PyVal :=
  try_except
    (lift (json_loads (shared_data self)))
    JSON_DECODE_EXCEPTIONS
    (log (LogException "Error converting row to event data: %s");;
     ret (core.PDict []))%py.
End with_platform.

End EventData.

(** ** class Events *)

Module Events.

Record row : Type := mkrow {
  event_id : option Z;
  event_type : option string;
  event_data : option string;
  origin : option string;
  origin_idx : option Z;
  time_fired : option datetime;
  time_fired_ts : option float;
  context_id : option string;
  context_user_id : option string;
  context_parent_id : option string;
  data_id : option Z;
  event_data_rel : option EventData.row;
}.

Section with_platform.
Context `{Platform}.

Definition from_event (event : core.Event) : M row :=
  (idx <- lift (EVENT_ORIGIN_TO_IDX_get (core.origin event));;
   ret {| event_id := None;
          event_type := core.event_type event;
          event_data := None;
          origin := None;
          origin_idx := idx;
          time_fired := None;
          time_fired_ts := Some (utc_to_timestamp (core.time_fired event));
          context_id := core.id (core.event_context event);
          context_user_id := core.user_id (core.event_context event);
          context_parent_id := core.parent_id (core.event_context event);
          data_id := None;
          event_data_rel := None |})%py.

Definition to_native (self : row) (validate_entity_id : bool)
  : M (option core.Event) :=
  let context :=
    Context_init (context_id self) (context_user_id self)
                 (context_parent_id self) in
  try_except
    (data <- lift (if truthy_str (event_data self)
                   then json_loads (event_data self)
                   else Ok (core.PDict []));;
     origin <- lift (match origin self with
                     | Some o =>
                         if truthy_str (Some o) then EventOrigin_of_value o
                         else list_getitem EVENT_ORIGIN_ORDER (origin_idx self)
                     | None =>
                         list_getitem EVENT_ORIGIN_ORDER (origin_idx self)
                     end);;
     fired <- lift (utc_from_timestamp (time_fired_ts self));;
     ret (Some (core.mkEvent (event_type self) data (core.Member origin)
                             fired context)))%py
    JSON_DECODE_EXCEPTIONS
    (log (LogException "Error converting to event: %s");;
     ret None)%py.
End with_platform.

End Events.

(** ** class StateAttributes *)

Module StateAttributes.

Record row : Type := mkrow {
  attributes_id : option Z;
  hash : option Z;
  shared_attrs : option string;
}.

(** the format string of the warning logged for an oversized attribute set *)
Definition oversize_warning : string :=
  "State attributes for %s exceed maximum size of %s bytes. "
  ++ "This can cause database performance issues; Attributes "
  ++ "will not be stored".

Section with_platform.
Context `{Platform}.

(** [{k: v for k, v in attributes.items() if k not in exclude_attrs}] *)
Definition without_excluded
    (exclude_attrs : gset string) (attributes : list (string * core.PyVal))
  : list (string * core.PyVal) :=
  filter (fun kv => kv.1 ∉ exclude_attrs) attributes.

Definition shared_attrs_bytes_from_event
    (event : core.Event)
    (exclude_attrs_by_domain : gmap string (gset string))
    (dialect : option SupportedDialect) : M bytes :=
  (state <- lift (core.get (core.data event) "new_state");;
   match state with
   | core.PNone => ret empty_object_bytes
   | core.PState state =>
       parts <- lift (split_entity_id (core.entity_id state));;
       let domain := parts.1 in
       let exclude_attrs :=
         default ∅ (exclude_attrs_by_domain !! domain)
           ∪ ALL_DOMAIN_EXCLUDE_ATTRS in
       let encoder :=
         if decide (dialect = Some PSQL_DIALECT)
         then json_bytes_strip_null else json_bytes in
       bytes_result <-
         lift (encoder (core.PDict
                 (without_excluded exclude_attrs (core.attributes state))));;
       if (len bytes_result >? MAX_STATE_ATTRS_BYTES)%Z then
         log (LogWarning oversize_warning);;
         ret empty_object_bytes
       else ret bytes_result
   | _ => raise AttributeError
   end)%py.

Definition to_native (self : row) : M core.PyVal :=
  try_except
    (lift (json_loads (shared_attrs self)))
    JSON_DECODE_EXCEPTIONS
    (log (LogException "Error converting row to state attributes: %s");;
     ret (core.PDict []))%py.
End with_platform.

End StateAttributes.

(** ** class States *)

(** [a == b] on two timestamp columns. *)
Definition float_eq (a b : option float) : bool :=
  match a, b with
  | Some x, Some y => PrimFloat.eqb x y
  | None, None => true
  | _, _ => false
  end.

(** [t or 0] on a timestamp column. *)
Definition or_0 (t : option float) : float :=
  match t with
  | Some f => if truthy_float t then f else 0%float
  | None => 0%float
  end.

Module States.

(** The columns, and the [state_attributes] relationship. The
    self-referential [old_state] relationship is read by no method of the
    class and is left out. [entity_id] holds the object assigned to it
    ([PNone] for null): [from_event] assigns what the event data holds,
    unchecked. *)
Record row : Type := mkrow {
  state_id : option Z;
  entity_id : core.PyVal;
  state : option string;
  attributes : option string;
  event_id : option Z;
  last_changed : option datetime;
  last_changed_ts : option float;
  last_updated : option datetime;
  last_updated_ts : option float;
  old_state_id : option Z;
  attributes_id : option Z;
  context_id : option string;
  context_user_id : option string;
  context_parent_id : option string;
  origin_idx : option Z;
  state_attributes : option StateAttributes.row;
}.

Definition with_state_and_timestamps
    (dbstate : row) (st : option string) (updated_ts changed_ts : option float)
  : row :=
  {| state_id := state_id dbstate;
     entity_id := entity_id dbstate;
     state := st;
     attributes := attributes dbstate;
     event_id := event_id dbstate;
     last_changed := last_changed dbstate;
     last_changed_ts := changed_ts;
     last_updated := last_updated dbstate;
     last_updated_ts := updated_ts;
     old_state_id := old_state_id dbstate;
     attributes_id := attributes_id dbstate;
     context_id := context_id dbstate;
     context_user_id := context_user_id dbstate;
     context_parent_id := context_parent_id dbstate;
     origin_idx := origin_idx dbstate;
     state_attributes := state_attributes dbstate |}.

Section with_platform.
Context `{Platform}.

Definition from_event (event : core.Event) : M row :=
  (entity_id <- lift (core.getitem (core.data event) "entity_id");;
   state <- lift (core.get (core.data event) "new_state");;
   idx <- lift (EVENT_ORIGIN_TO_IDX_get (core.origin event));;
   let dbstate :=
     {| state_id := None;
        entity_id := entity_id;
        state := None;
        attributes := None;
        event_id := None;
        last_changed := None;
        last_changed_ts := None;
        last_updated := None;
        last_updated_ts := None;
        old_state_id := None;
        attributes_id := None;
        context_id := core.id (core.event_context event);
        context_user_id := core.user_id (core.event_context event);
        context_parent_id := core.parent_id (core.event_context event);
        origin_idx := idx;
        state_attributes := None |} in
   match state with
   | core.PNone =>
       ret (with_state_and_timestamps dbstate (Some "")
              (Some (utc_to_timestamp (core.time_fired event))) None)
   | core.PState state =>
       ret (with_state_and_timestamps dbstate (Some (core.state state))
              (Some (utc_to_timestamp (core.last_updated state)))
              (if decide (core.last_updated state = core.last_changed state)
               then None
               else Some (utc_to_timestamp (core.last_changed state))))
   | _ => raise AttributeError
   end)%py.

Definition to_native (self : row) (validate_entity_id : bool)
  : M (option core.State) :=
  let context :=
    Context_init (context_id self) (context_user_id self)
                 (context_parent_id self) in
  (parsed <- try_except
               (attrs <- lift (if truthy_str (attributes self)
                               then json_loads (attributes self)
                               else Ok (core.PDict []));;
                ret (Some attrs))
               JSON_DECODE_EXCEPTIONS
               (log (LogException "Error converting row to state: %s");;
                ret None);;
   match parsed with
   | None => ret None
   | Some attrs =>
       stamps <-
         (if match last_changed_ts self with None => true | Some _ => false end
             || float_eq (last_changed_ts self) (last_updated_ts self)
          then
            both <- lift (utc_from_timestamp
                            (Some (or_0 (last_updated_ts self))));;
            ret (both, both)
          else
            last_updated <- lift (utc_from_timestamp
                                    (Some (or_0 (last_updated_ts self))));;
            last_changed <- lift (utc_from_timestamp
                                    (Some (or_0 (last_changed_ts self))));;
            ret (last_changed, last_updated));;
       fields <- lift (State_init (entity_id self) (state self) attrs
                                  validate_entity_id);;
       ret (Some (core.mkState fields.1.1 fields.1.2 fields.2
                               stamps.1 stamps.2 context))
   end)%py.
End with_platform.

End States.

(** ** Statistics tables *)

(** [Index(name, *columns, unique=...)] *)
Record Index : Type := mkIndex {
  index_name : string;
  index_columns : list string;
  index_unique : bool;
}.

Definition TABLE_STATISTICS : string := "statistics".
Definition TABLE_STATISTICS_SHORT_TERM : string := "statistics_short_term".

(** A value held by a column; [None] in an [option sql_value] is SQL NULL. *)
Inductive sql_value : Type :=
| SqlInteger (z : Z)
| SqlDateTime (d : datetime)
| SqlDouble (f : float).

Definition sql_eqb (a b : sql_value) : bool :=
  match a, b with
  | SqlInteger x, SqlInteger y => (x =? y)%Z
  | SqlDateTime x, SqlDateTime y => (x =? y)%Z
  | SqlDouble x, SqlDouble y => PrimFloat.eqb x y
  | _, _ => false
  end.

Module StatisticsBase.

Record row : Type := mkrow {
  id : option Z;
  created : option datetime;
  metadata_id : option Z;
  start : option datetime;
  mean : option float;
  min : option float;
  max : option float;
  last_reset : option datetime;
  state : option float;
  sum : option float;
}.

(** recorder.models.StatisticData: [start] is required, the other keys are
    optional. *)
Record StatisticData : Type := mkStatisticData {
  stats_start : datetime;
  stats_mean : option float;
  stats_min : option float;
  stats_max : option float;
  stats_last_reset : option datetime;
  stats_state : option float;
  stats_sum : option float;
}.

(** [cls(metadata_id=metadata_id, **stats)] *)
Definition from_stats (metadata_id : Z) (stats : StatisticData) : row :=
  {| id := None;
     created := None;
     metadata_id := Some metadata_id;
     start := Some (stats_start stats);
     mean := stats_mean stats;
     min := stats_min stats;
     max := stats_max stats;
     last_reset := stats_last_reset stats;
     state := stats_state stats;
     sum := stats_sum stats |}.

(** The value of the column called [name] in a row. *)
Definition column (name : string) (r : row) : option sql_value :=
  if decide (name = "id") then SqlInteger <$> id r
  else if decide (name = "created") then SqlDateTime <$> created r
  else if decide (name = "metadata_id") then SqlInteger <$> metadata_id r
  else if decide (name = "start") then SqlDateTime <$> start r
  else if decide (name = "mean") then SqlDouble <$> mean r
  else if decide (name = "min") then SqlDouble <$> min r
  else if decide (name = "max") then SqlDouble <$> max r
  else if decide (name = "last_reset") then SqlDateTime <$> last_reset r
  else if decide (name = "state") then SqlDouble <$> state r
  else if decide (name = "sum") then SqlDouble <$> sum r
  else None.

End StatisticsBase.

Module Statistics.
(** [timedelta(hours=1)], in seconds *)
Definition duration : Z := 1 * 3600.
Definition __table_args__ : list Index :=
  [mkIndex "ix_statistics_statistic_id_start" ["metadata_id"; "start"] true].
Definition __tablename__ : string := TABLE_STATISTICS.
End Statistics.

Module StatisticsShortTerm.
(** [timedelta(minutes=5)], in seconds *)
Definition duration : Z := 5 * 60.
Definition __table_args__ : list Index :=
  [mkIndex "ix_statistics_short_term_statistic_id_start"
           ["metadata_id"; "start"] true].
Definition __tablename__ : string := TABLE_STATISTICS_SHORT_TERM.
End StatisticsShortTerm.

(** *** The store under the declared indexes *)

Module Store.

Definition table : Type := list StatisticsBase.row.

Definition index_key (ix : Index) (r : StatisticsBase.row)
  : list (option sql_value) :=
  map (fun c => StatisticsBase.column c r) (index_columns ix).

(** Two index keys collide when they agree column by column; a NULL
    collides with nothing. *)
Fixpoint keys_collide (k1 k2 : list (option sql_value)) : bool :=
  match k1, k2 with
  | [], [] => true
  | Some a :: k1', Some b :: k2' => sql_eqb a b && keys_collide k1' k2'
  | _, _ => false
  end.

Definition violates (ix : Index) (t : table) (r : StatisticsBase.row) : bool :=
  index_unique ix
  && existsb (fun r' => keys_collide (index_key ix r') (index_key ix r)) t.

(** Modelled from the spec: the write of one aggregate row, carried out by
    the database engine, whose code is not part of this module. Sections
    3 and 4.4 of the specification: a write that violates a uniqueness
    constraint signals a conflict error and leaves the stored rows as they
    are; any other write adds the row. *)
Definition insert (indexes : list Index) (t : table) (r : StatisticsBase.row)
  : result table :=
  if existsb (fun ix => violates ix t r) indexes
  then Raise IntegrityError
  else Ok (t ++ [r]).

(** The tables that writes can build, starting from the empty one. *)
Inductive reachable (indexes : list Index) : table -> Prop :=
| reachable_empty : reachable indexes []
| reachable_insert t r t' :
    reachable indexes t -> insert indexes t r = Ok t' -> reachable indexes t'.

(** The key of a row under an index on (metadata_id, start). *)
Definition bucket_key (r : StatisticsBase.row) : list (option sql_value) :=
  [SqlInteger <$> StatisticsBase.metadata_id r;
   SqlDateTime <$> StatisticsBase.start r].

(** The rows of a table stored under a given (series, bucket-start) pair. *)
Definition rows_at (m : Z) (s : datetime) (t : table) : table :=
  List.filter
    (fun r => keys_collide (bucket_key r)
                           [Some (SqlInteger m); Some (SqlDateTime s)]) t.

End Store.

(** ** class RecorderRuns *)

(** SQL comparisons on nullable datetimes: a comparison with NULL is not
    true, so the row is not selected. *)
Definition sql_ge (a b : option datetime) : bool :=
  match a, b with
  | Some x, Some y => (y <=? x)%Z
  | _, _ => false
  end.

Definition sql_lt (a b : option datetime) : bool :=
  match a, b with
  | Some x, Some y => (x <? y)%Z
  | _, _ => false
  end.

Module RecorderRuns.

Record row : Type := mkrow {
  run_id : option Z;
  start : option datetime;
  end_ : option datetime;
  closed_incorrect : option bool;
  created : option datetime;
}.

(** What [Session.object_session(self)] gives: [None] for a row that is
    not persisted, otherwise a session, through which the rows of the
    states table are queried. *)
Definition Session : Type := list States.row.

Definition entity_ids
    (self : row) (session : option Session) (point_in_time : option datetime)
  : result (list core.PyVal) :=
  match session with
  | None => Raise AssertionError
  | Some states =>
      let query :=
        List.filter (fun s => sql_ge (States.last_updated s) (start self))
                    states in
      let query :=
        match point_in_time with
        | Some _ =>
            List.filter (fun s => sql_lt (States.last_updated s) point_in_time)
                        query
        | None =>
            match end_ self with
            | Some _ =>
                List.filter (fun s => sql_lt (States.last_updated s) (end_ self))
                            query
            | None => query
            end
        end in
      Ok (remove_dups (map States.entity_id query))
  end.

Definition to_native (self : row) (validate_entity_id : bool) : row := self.

(** The selection in the words of the specification (section 4.5,
    entityIdsActiveDuring): the distinct entity ids of the states whose
    last-updated lies in [[run.start, min(pointInTime, run.end-or-now))],
    [now] being the instant of the call. It is compared with [entity_ids]
    below. *)
Definition entity_ids_active_during
    (self : row) (states : Session) (point_in_time : option datetime)
    (now : datetime) : list core.PyVal :=
  let run_end := default now (end_ self) in
  let upper :=
    match point_in_time with
    | Some p => Z.min p run_end
    | None => run_end
    end in
  remove_dups
    (map States.entity_id
         (List.filter
            (fun s => sql_ge (States.last_updated s) (start self)
                      && sql_lt (States.last_updated s) (Some upper))
            states)).

(** The upper bound [entity_ids] puts on last-updated: [point_in_time] when
    it is given, otherwise the end of the run when it has one, otherwise
    none. *)
Definition before_upper_bound
    (self : row) (point_in_time : option datetime) (u : datetime)
  : Prop :=
  match point_in_time, end_ self with
  | Some p, _ => (u < p)%Z
  | None, Some e => (u < e)%Z
  | None, None => True
  end.

End RecorderRuns.

(** ** A reference implementation of the imports

    One concrete [Platform], on which the module runs on concrete inputs:
    timestamps are binary64 epoch seconds rounded to the nearest microsecond
    on the way back, the JSON reader knows the empty containers and [null],
    the JSON writer emits compact text. *)

Module Reference.

Fixpoint float_of_pos (p : positive) : float :=
  match p with
  | xH => 1%float
  | xO p => (2 * float_of_pos p)%float
  | xI p => (2 * float_of_pos p + 1)%float
  end.

Definition float_of_Z (z : Z) : float :=
  match z with
  | Z0 => 0%float
  | Zpos p => float_of_pos p
  | Zneg p => (- float_of_pos p)%float
  end.

(** whole seconds plus the microsecond fraction *)
Definition utc_to_timestamp (d : datetime) : float :=
  (float_of_Z (d / 1000000) + float_of_Z (d mod 1000000) / 1000000)%float.

(** A finite float as [mantissa * 2 ^ exponent]. *)
Definition decode (f : float) : Z * Z :=
  let (m, e) := frshiftexp (abs f) in
  let mant := Uint63.to_Z (normfr_mantissa m) in
  ((if PrimFloat.ltb f 0%float then - mant else mant)%Z,
   (Uint63.to_Z e - 2101 - 53)%Z).

Definition round_half_even_div (n d : Z) : Z :=
  let q := (n / d)%Z in
  let r := (n mod d)%Z in
  if (2 * r <? d)%Z then q
  else if (d <? 2 * r)%Z then (q + 1)%Z
  else if Z.even q then q else (q + 1)%Z.

Definition microseconds (f : float) : Z :=
  let (m, e) := decode f in
  if (0 <=? e)%Z then (m * 2 ^ e * 1000000)%Z
  else round_half_even_div (m * 1000000) (2 ^ (- e)).

(** years 1 to 9999, in microseconds since the epoch *)
Definition datetime_min : Z := -62135596800000000.
Definition datetime_max : Z := 253402300799999999.

Definition utc_from_timestamp (t : option float) : result datetime :=
  match t with
  | None => Raise TypeError
  | Some f =>
      if is_nan f then Raise ValueError
      else if is_infinity f then Raise OverflowError
      else
        let us := microseconds f in
        if ((datetime_min <=? us) && (us <=? datetime_max))%Z then Ok us
        else Raise ValueError
  end.

Definition json_loads (text : option string) : result core.PyVal :=
  match text with
  | None => Raise JSONDecodeError
  | Some s =>
      if decide (s = "{}") then Ok (core.PDict [])
      else if decide (s = "[]") then Ok (core.PList [])
      else if decide (s = "null") then Ok core.PNone
      else Raise JSONDecodeError
  end.

Definition text_bytes (s : string) : bytes := list_byte_of_string s.

Definition quoted (s : string) : bytes := [x22] ++ text_bytes s ++ [x22].

Definition int_bytes (z : Z) : bytes :=
  text_bytes (NilEmpty.string_of_int (Z.to_int z)).

(** The encodings of the items of a container, joined by commas. *)
Fixpoint joined (items : list (result bytes)) : result bytes :=
  match items with
  | [] => Ok []
  | item :: rest =>
      match item, joined rest with
      | Raise e, _ | Ok _, Raise e => Raise e
      | Ok b, Ok bs =>
          Ok (match rest with [] => b | _ :: _ => b ++ [x2c] ++ bs end)
      end
  end.

Definition wrapped (opening closing : byte) (body : result bytes)
  : result bytes :=
  match body with
  | Ok b => Ok ([opening] ++ b ++ [closing])
  | Raise e => Raise e
  end.

Fixpoint json_bytes (v : core.PyVal) : result bytes :=
  match v with
  | core.PNone => Ok (text_bytes "null")
  | core.PBool true => Ok (text_bytes "true")
  | core.PBool false => Ok (text_bytes "false")
  | core.PInt z => Ok (int_bytes z)
  | core.PStr s => Ok (quoted s)
  | core.PList l => wrapped x5b x5d (joined (map json_bytes l))
  | core.PDict d =>
      wrapped x7b x7d
        (joined
           ((fix members (kv : list (string * core.PyVal)) :=
               match kv with
               | [] => []
               | (k, x) :: kv' =>
                   match json_bytes x with
                   | Ok b => Ok (quoted k ++ [x3a] ++ b)
                   | Raise e => Raise e
                   end :: members kv'
               end) d))
  | core.PFloat _ | core.PState _ => Raise TypeError
  end.

Definition JSON_DECODE_EXCEPTIONS (e : exn) : bool :=
  match e with
  | JSONDecodeError => true
  | _ => false
  end.

Definition EventOrigin_of_value (value : string) : result core.EventOrigin :=
  if decide (value = "LOCAL") then Ok core.local
  else if decide (value = "REMOTE") then Ok core.remote
  else Raise ValueError.

(** [entity_id.partition(".")], refused when either part is empty *)
Definition split_entity_id (entity_id : string) : result (string * string) :=
  match index 0 "." entity_id with
  | Some n =>
      let domain := substring 0 n entity_id in
      let object_id :=
        substring (S n) (String.length entity_id - S n) entity_id in
      if decide (domain = "") then Raise ValueError
      else if decide (object_id = "") then Raise ValueError
      else Ok (domain, object_id)
  | None => Raise ValueError
  end.

Definition State_init
    (entity_id : core.PyVal) (state : option string) (attributes : core.PyVal)
    (validate_entity_id : bool)
  : result (string * string * list (string * core.PyVal)) :=
  match entity_id, state, attributes with
  | core.PStr e, Some s, core.PDict d =>
      match split_entity_id e with
      | Raise _ =>
          if validate_entity_id
          then Raise (OtherError "InvalidEntityFormatError")
          else Raise ValueError
      | Ok _ =>
          if (255 <? Z.of_nat (String.length s))%Z
          then Raise (OtherError "InvalidStateError")
          else Ok (e, s, d)
      end
  | _, _, _ => Raise TypeError
  end.

Definition ALL_DOMAIN_EXCLUDE_ATTRS : gset string :=
  {[ "attribution"; "restored"; "supported_features" ]}.

(** the one ULID this platform draws *)
Definition ulid : string := "01HK4ZQ9V7FRESHV1ADRAWN000".

Definition platform : Platform :=
  Build_Platform utc_to_timestamp utc_from_timestamp json_loads json_bytes
                 JSON_DECODE_EXCEPTIONS EventOrigin_of_value split_entity_id
                 State_init ulid ALL_DOMAIN_EXCLUDE_ATTRS.

End Reference.

(** ** Sample data *)

Module Sample.

(** 2024-01-01T00:00:00Z *)
Definition new_year : datetime := 1704067200000000%Z.

Definition ctx : core.Context :=
  core.mkContext (Some "01HK4ZQ9V7M3C0N5T2X8B6R1AD") None None.

Definition light_on : core.State :=
  core.mkState "light.x" "on" [("brightness", core.PInt 100)]
               new_year new_year ctx.

(** the state_changed event of section 8 of the specification *)
Definition light_turned_on : core.Event :=
  core.mkEvent (Some "state_changed")
               (core.PDict [("entity_id", core.PStr "light.x");
                            ("new_state", core.PState light_on)])
               (core.Member core.local) new_year ctx.

(** the entity is removed: the new state is [None] *)
Definition light_removed : core.Event :=
  core.mkEvent (Some "state_changed")
               (core.PDict [("entity_id", core.PStr "light.x");
                            ("old_state", core.PState light_on);
                            ("new_state", core.PNone)])
               (core.Member core.local) new_year ctx.

(** a row of the states table as [States.from_event] writes it for
    [light_turned_on] *)
Definition light_row : States.row :=
  {| States.state_id := Some 1%Z;
     States.entity_id := core.PStr "light.x";
     States.state := Some "on";
     States.attributes := None;
     States.event_id := None;
     States.last_changed := None;
     States.last_changed_ts := None;
     States.last_updated := None;
     States.last_updated_ts := Some 1704067200%float;
     States.old_state_id := None;
     States.attributes_id := None;
     States.context_id := core.id ctx;
     States.context_user_id := None;
     States.context_parent_id := None;
     States.origin_idx := Some 0%Z;
     States.state_attributes := None |}.

(** a payload row whose text is cut short *)
Definition truncated_attrs : StateAttributes.row :=
  StateAttributes.mkrow (Some 3%Z) (Some 84696351%Z) (Some "{").

(** [light_row], its attributes now in the shared payload row
    [truncated_attrs] *)
Definition light_row_shared : States.row :=
  {| States.state_id := Some 1%Z;
     States.entity_id := core.PStr "light.x";
     States.state := Some "on";
     States.attributes := None;
     States.event_id := None;
     States.last_changed := None;
     States.last_changed_ts := None;
     States.last_updated := None;
     States.last_updated_ts := Some 1704067200%float;
     States.old_state_id := None;
     States.attributes_id := Some 3%Z;
     States.context_id := core.id ctx;
     States.context_user_id := None;
     States.context_parent_id := None;
     States.origin_idx := Some 0%Z;
     States.state_attributes := Some truncated_attrs |}.

(** [light_row] in the legacy format, its inline attributes cut short *)
Definition light_row_inline : States.row :=
  {| States.state_id := Some 1%Z;
     States.entity_id := core.PStr "light.x";
     States.state := Some "on";
     States.attributes := Some "{";
     States.event_id := Some 1%Z;
     States.last_changed := Some new_year;
     States.last_changed_ts := None;
     States.last_updated := Some new_year;
     States.last_updated_ts := None;
     States.old_state_id := None;
     States.attributes_id := None;
     States.context_id := core.id ctx;
     States.context_user_id := None;
     States.context_parent_id := None;
     States.origin_idx := None;
     States.state_attributes := None |}.

Definition seconds (n : Z) : Z := (n * 1000000)%Z.

(** a recorder run of ten seconds, closed *)
Definition short_run : RecorderRuns.row :=
  {| RecorderRuns.run_id := Some 1%Z;
     RecorderRuns.start := Some new_year;
     RecorderRuns.end_ := Some (new_year + seconds 10)%Z;
     RecorderRuns.closed_incorrect := Some false;
     RecorderRuns.created := Some new_year |}.

(** a legacy-format row of [entity], last updated [offset] seconds into the
    year *)
Definition legacy_row (entity : string) (offset : Z) : States.row :=
  {| States.state_id := None;
     States.entity_id := core.PStr entity;
     States.state := Some "on";
     States.attributes := Some "{}";
     States.event_id := None;
     States.last_changed := Some (new_year + seconds offset)%Z;
     States.last_changed_ts := None;
     States.last_updated := Some (new_year + seconds offset)%Z;
     States.last_updated_ts := None;
     States.old_state_id := None;
     States.attributes_id := None;
     States.context_id := core.id ctx;
     States.context_user_id := None;
     States.context_parent_id := None;
     States.origin_idx := Some 0%Z;
     States.state_attributes := None |}.

(** states recorded during [short_run] and after it *)
Definition recorded_states : RecorderRuns.Session :=
  [legacy_row "light.x" 2; legacy_row "light.y" 5; legacy_row "light.x" 7;
   legacy_row "switch.z" 15].

(** hourly aggregates of series 1: two buckets, and a second aggregate for
    the first of them *)
Definition first_hour : StatisticsBase.row :=
  StatisticsBase.from_stats 1
    (StatisticsBase.mkStatisticData new_year (Some 21.5%float) (Some 20%float)
       (Some 23%float) None None None).

Definition second_hour : StatisticsBase.row :=
  StatisticsBase.from_stats 1
    (StatisticsBase.mkStatisticData (new_year + seconds 3600)%Z
       (Some 22%float) (Some 21%float) (Some 23.5%float) None None None).

Definition first_hour_again : StatisticsBase.row :=
  StatisticsBase.from_stats 1
    (StatisticsBase.mkStatisticData new_year (Some 19%float) (Some 18%float)
       (Some 20%float) None None None).

Definition hourly_table : Store.table := [first_hour; second_hour].


(** an event whose origin attribute holds a list *)
Definition list_origin_event : core.Event :=
  core.mkEvent (Some "call_service") (core.PDict [])
               (core.Unhashable "[]") new_year ctx.

(** an event whose origin attribute holds [None] *)
Definition stray_origin_event : core.Event :=
  core.mkEvent (Some "call_service") (core.PDict [])
               (core.Foreign "None") new_year ctx.

Fixpoint repeated (n : nat) (c : ascii) : string :=
  match n with
  | O => EmptyString
  | S n' => String c (repeated n' c)
  end.

(** a camera whose state carries a 16 KiB snapshot and a null token *)
Definition camera_state : core.State :=
  core.mkState "camera.door" "idle"
               [("snapshot", core.PStr (repeated (128 * 128) "a"));
                ("access_token", core.PNone);
                ("restored", core.PBool true)]
               new_year new_year ctx.

Definition camera_changed : core.Event :=
  core.mkEvent (Some "state_changed")
               (core.PDict [("entity_id", core.PStr "camera.door");
                            ("new_state", core.PState camera_state)])
               (core.Member core.local) new_year ctx.

(** a sensor with a null attribute and attributes excluded from recording *)
Definition sensor_state : core.State :=
  core.mkState "sensor.power" "12"
               [("unit_of_measurement", core.PStr "W");
                ("last_reset", core.PNone);
                ("options", core.PList []);
                ("attribution", core.PStr "meter")]
               new_year new_year ctx.

Definition sensor_changed : core.Event :=
  core.mkEvent (Some "state_changed")
               (core.PDict [("entity_id", core.PStr "sensor.power");
                            ("new_state", core.PState sensor_state)])
               (core.Member core.remote) new_year ctx.

(** the exclusions registered by the sensor integration *)
Definition exclusions : gmap string (gset string) :=
  {[ "sensor" := {[ "options" ]} ]}.

(** the sensor's attributes as compact JSON text, with and without the
    null-valued key *)
Definition sensor_bytes : bytes :=
  [x7b] ++ Reference.quoted "unit_of_measurement" ++ [x3a]
        ++ Reference.quoted "W" ++ [x2c]
        ++ Reference.quoted "last_reset" ++ [x3a]
        ++ Reference.text_bytes "null" ++ [x7d].

(** the camera's attributes as compact JSON text *)
Definition camera_bytes : bytes :=
  [x7b] ++ Reference.quoted "snapshot" ++ [x3a]
        ++ Reference.quoted (repeated (128 * 128) "a") ++ [x2c]
        ++ Reference.quoted "access_token" ++ [x3a]
        ++ Reference.text_bytes "null" ++ [x7d].

Definition sensor_bytes_stripped : bytes :=
  [x7b] ++ Reference.quoted "unit_of_measurement" ++ [x3a]
        ++ Reference.quoted "W" ++ [x7d].

(** a row of the events table in the current format, with the given origin
    index *)
Definition event_row (idx : option Z) : Events.row :=
  {| Events.event_id := Some 12%Z;
     Events.event_type := Some "call_service";
     Events.event_data := None;
     Events.origin := None;
     Events.origin_idx := idx;
     Events.time_fired := None;
     Events.time_fired_ts := Some 1704067200%float;
     Events.context_id := core.id ctx;
     Events.context_user_id := None;
     Events.context_parent_id := None;
     Events.data_id := Some 4%Z;
     Events.event_data_rel := None |}.

(** a row of the events table in the legacy format: inline data and origin
    string, with the given inline data *)
Definition legacy_event_row (inline : string) : Events.row :=
  {| Events.event_id := Some 3%Z;
     Events.event_type := Some "call_service";
     Events.event_data := Some inline;
     Events.origin := Some "REMOTE";
     Events.origin_idx := None;
     Events.time_fired := Some new_year;
     Events.time_fired_ts := Some 1704067200%float;
     Events.context_id := core.id ctx;
     Events.context_user_id := None;
     Events.context_parent_id := None;
     Events.data_id := None;
     Events.event_data_rel := None |}.

(** [light_row], last changed a hundred seconds before its last update *)
Definition light_row_changed_earlier : States.row :=
  {| States.state_id := Some 2%Z;
     States.entity_id := core.PStr "light.x";
     States.state := Some "on";
     States.attributes := None;
     States.event_id := None;
     States.last_changed := None;
     States.last_changed_ts := Some 1704067100%float;
     States.last_updated := None;
     States.last_updated_ts := Some 1704067200%float;
     States.old_state_id := Some 1%Z;
     States.attributes_id := None;
     States.context_id := core.id ctx;
     States.context_user_id := None;
     States.context_parent_id := None;
     States.origin_idx := Some 0%Z;
     States.state_attributes := None |}.

(** a state whose attribute the reference writer cannot encode *)
Definition thermometer_state : core.State :=
  core.mkState "sensor.temp" "21.5" [("reading", core.PFloat 21.5%float)]
               new_year new_year ctx.

Definition thermometer_changed : core.Event :=
  core.mkEvent (Some "state_changed")
               (core.PDict [("entity_id", core.PStr "sensor.temp");
                            ("new_state", core.PState thermometer_state)])
               (core.Member core.local) new_year ctx.

(** a state whose entity id has no domain part *)
Definition nameless_state : core.State :=
  core.mkState "orphan" "on" [] new_year new_year ctx.

Definition nameless_changed : core.Event :=
  core.mkEvent (Some "state_changed")
               (core.PDict [("entity_id", core.PStr "orphan");
                            ("new_state", core.PState nameless_state)])
               (core.Member core.local) new_year ctx.

(** the light reports the empty string as its state, at the instant
    [light_removed] is fired *)
Definition light_blank : core.State :=
  core.mkState "light.x" "" [("brightness", core.PInt 0)]
               new_year new_year ctx.

Definition light_blanked : core.Event :=
  core.mkEvent (Some "state_changed")
               (core.PDict [("entity_id", core.PStr "light.x");
                            ("old_state", core.PState light_on);
                            ("new_state", core.PState light_blank)])
               (core.Member core.local) new_year ctx.

(** the row [Events.from_event] writes for [light_turned_on] *)
Definition event_row_of_light_turned_on : Events.row :=
  {| Events.event_id := None;
     Events.event_type := Some "state_changed";
     Events.event_data := None;
     Events.origin := None;
     Events.origin_idx := Some 0%Z;
     Events.time_fired := None;
     Events.time_fired_ts := Some 1704067200%float;
     Events.context_id := core.id ctx;
     Events.context_user_id := None;
     Events.context_parent_id := None;
     Events.data_id := None;
     Events.event_data_rel := None |}.

(** a row of the events table whose context columns are null *)
Definition event_row_without_context (idx : option Z) : Events.row :=
  {| Events.event_id := Some 13%Z;
     Events.event_type := Some "call_service";
     Events.event_data := None;
     Events.origin := None;
     Events.origin_idx := idx;
     Events.time_fired := None;
     Events.time_fired_ts := Some 1704067200%float;
     Events.context_id := None;
     Events.context_user_id := None;
     Events.context_parent_id := None;
     Events.data_id := None;
     Events.event_data_rel := None |}.

(** a row of the states table whose context columns are null, last changed
    a hundred seconds before its last update *)
Definition light_row_without_context : States.row :=
  {| States.state_id := Some 5%Z;
     States.entity_id := core.PStr "light.x";
     States.state := Some "on";
     States.attributes := None;
     States.event_id := None;
     States.last_changed := None;
     States.last_changed_ts := Some 1704067100%float;
     States.last_updated := None;
     States.last_updated_ts := Some 1704067200%float;
     States.old_state_id := None;
     States.attributes_id := None;
     States.context_id := None;
     States.context_user_id := None;
     States.context_parent_id := None;
     States.origin_idx := Some 0%Z;
     States.state_attributes := None |}.

(** the row [States.from_event] writes for [light_turned_on] *)
Definition fresh_light_row : States.row :=
  {| States.state_id := None;
     States.entity_id := core.PStr "light.x";
     States.state := Some "on";
     States.attributes := None;
     States.event_id := None;
     States.last_changed := None;
     States.last_changed_ts := None;
     States.last_updated := None;
     States.last_updated_ts := Some 1704067200%float;
     States.old_state_id := None;
     States.attributes_id := None;
     States.context_id := core.id ctx;
     States.context_user_id := None;
     States.context_parent_id := None;
     States.origin_idx := Some 0%Z;
     States.state_attributes := None |}.

End Sample.

(** * Properties *)

(** Unfolding the plumbing of [M] in a goal. *)
Ltac run_py :=
  unfold bind, lift, ret, raise, log, try_except in *; cbn in *.

(** The reference timestamps at work: an instant with a microsecond part
    goes to epoch seconds and back unchanged; NaN is refused. *)
Example Reference_timestamp_round_trip :
  Reference.utc_from_timestamp
    (Some (Reference.utc_to_timestamp 1704067200123457%Z))
  = Ok 1704067200123457%Z /\
  Reference.utc_from_timestamp (Some nan) = Raise ValueError.
Proof. split; vm_compute; reflexivity. Qed.

(** Two laws of [M]: a call that returns feeds the rest, a call that
    raises ends it. *)
Lemma bind_lift_Ok {A B} (a : A) (f : A -> M B) :
  bind (lift (Ok a)) f = f a.
Proof. unfold bind, lift. destruct (f a). reflexivity. Qed.

Lemma bind_lift_Raise {A B} (e : exn) (f : A -> M B) :
  bind (lift (Raise e)) f = (Raise e, []).
Proof. reflexivity. Qed.

Lemma bind_ret {A B} (a : A) (f : A -> M B) : bind (ret a) f = f a.
Proof. apply (bind_lift_Ok a f). Qed.

Lemma try_except_ret {A} (a : A) (handled : exn -> bool) (handler : M A) :
  try_except (ret a) handled handler = ret a.
Proof. reflexivity. Qed.

Section EventsFacts.
Context `{Platform}.

Lemma EVENT_ORIGIN_TO_IDX_eq :
  EVENT_ORIGIN_TO_IDX = [(core.Member core.local, 0%Z); (core.Member core.remote, 1%Z)].
Proof. reflexivity. Qed.

(** A context built from a triple whose id is not empty is that triple. *)
Lemma Context_init_truthy (c : core.Context) :
  truthy_str (core.id c) = true ->
  Context_init (core.id c) (core.user_id c) (core.parent_id c) = c.
Proof. intros Hid. unfold Context_init. rewrite Hid. destruct c; reflexivity. Qed.

End EventsFacts.



(** ** Writing and reading state rows *)

Section StatesFacts.
Context `{Platform}.

(** [States.to_native] when the inline attributes are absent or parse. *)
Lemma States_to_native_parsed (self : States.row) (validate : bool)
    (attrs : core.PyVal) :
  (if truthy_str (States.attributes self)
   then json_loads (States.attributes self)
   else Ok (core.PDict [])) = Ok attrs ->
  States.to_native self validate =
  (stamps <-
     (if match States.last_changed_ts self with None => true | Some _ => false end
         || float_eq (States.last_changed_ts self) (States.last_updated_ts self)
      then
        both <- lift (utc_from_timestamp
                        (Some (or_0 (States.last_updated_ts self))));;
        ret (both, both)
      else
        last_updated <- lift (utc_from_timestamp
                                (Some (or_0 (States.last_updated_ts self))));;
        last_changed <- lift (utc_from_timestamp
                                (Some (or_0 (States.last_changed_ts self))));;
        ret (last_changed, last_updated));;
   fields <- lift (State_init (States.entity_id self) (States.state self) attrs
                              validate);;
   ret (Some (core.mkState fields.1.1 fields.1.2 fields.2 stamps.1 stamps.2
                (Context_init (States.context_id self)
                              (States.context_user_id self)
                              (States.context_parent_id self)))))%py.
Proof.
  intros Hparse. unfold States.to_native.
  rewrite Hparse, bind_lift_Ok, try_except_ret, bind_ret. reflexivity.
Qed.

(** [States.to_native] when the inline attributes do not parse. *)
Lemma States_to_native_unparsed (self : States.row) (validate : bool) (e : exn) :
  truthy_str (States.attributes self) = true ->
  json_loads (States.attributes self) = Raise e ->
  JSON_DECODE_EXCEPTIONS e = true ->
  States.to_native self validate
  = (Ok None, [LogException "Error converting row to state: %s"]).
Proof.
  intros Htruthy Hloads Hhandled. unfold States.to_native.
  rewrite Htruthy, Hloads. run_py. rewrite Hhandled. reflexivity.
Qed.

(** C2. For a state_changed event with a non-null new state,
    [States.from_event] (which returns a row once the entity id is found
    and the origin looked up) stores a null [last_changed_ts] exactly when
    the state's [last_changed] equals its [last_updated], and otherwise
    stores the state's [last_changed] as epoch seconds. [States.to_native] gives
    back a state whose [last_changed] equals its [last_updated] whenever the
    stored [last_changed_ts] is null or [==] to [last_updated_ts]: every
    state it returns is such, and it returns one as soon as the attributes
    parse, the timestamp converts and the [State] constructor accepts the
    row. *)
Theorem States_last_changed_collapse :
  (forall (event : core.Event) (v : core.PyVal) (idx : option Z)
          (st : core.State),
      core.getitem (core.data event) "entity_id" = Ok v ->
      EVENT_ORIGIN_TO_IDX_get (core.origin event) = Ok idx ->
      core.get (core.data event) "new_state" = Ok (core.PState st) ->
      exists dbstate : States.row,
        States.from_event event = (Ok dbstate, []) /\
        (States.last_changed_ts dbstate = None
         <-> core.last_changed st = core.last_updated st) /\
        (core.last_changed st <> core.last_updated st ->
         States.last_changed_ts dbstate
         = Some (utc_to_timestamp (core.last_changed st))) /\
        States.last_updated_ts dbstate
        = Some (utc_to_timestamp (core.last_updated st)))
  /\
  (forall (self : States.row) (validate : bool),
      States.last_changed_ts self = None \/
      float_eq (States.last_changed_ts self) (States.last_updated_ts self) = true ->
      (forall (s : core.State) (l : list log_record),
          States.to_native self validate = (Ok (Some s), l) ->
          core.last_changed s = core.last_updated s) /\
      (forall (attrs : core.PyVal) (t : datetime)
              (fields : string * string * list (string * core.PyVal)),
          (if truthy_str (States.attributes self)
           then json_loads (States.attributes self)
           else Ok (core.PDict [])) = Ok attrs ->
          utc_from_timestamp (Some (or_0 (States.last_updated_ts self))) = Ok t ->
          State_init (States.entity_id self) (States.state self) attrs validate
          = Ok fields ->
          exists s : core.State,
            States.to_native self validate = (Ok (Some s), []) /\
            core.last_changed s = t /\ core.last_updated s = t)).
Proof.
  split.
  - intros event v idx st Hid Hidx Hnew.
    unfold States.from_event.
    rewrite Hid, bind_lift_Ok, Hnew, bind_lift_Ok, Hidx, bind_lift_Ok.
    eexists; split; [reflexivity |]. cbn.
    destruct (decide (core.last_updated st = core.last_changed st)) as [Heq | Hne].
    + repeat split; intros; congruence.
    + repeat split; intros; congruence.
  - intros self validate Hcond.
    assert (Hbranch :
              match States.last_changed_ts self with None => true | Some _ => false end
              || float_eq (States.last_changed_ts self) (States.last_updated_ts self)
              = true).
    { destruct Hcond as [-> | ->]; [reflexivity | apply orb_true_r]. }
    split.
    + intros s l Hret.
      destruct (if truthy_str (States.attributes self)
                then json_loads (States.attributes self)
                else Ok (core.PDict [])) as [attrs | e] eqn:Hparse.
      * rewrite (States_to_native_parsed _ _ _ Hparse), Hbranch in Hret.
        run_py.
        destruct (utc_from_timestamp _) as [t | e]; cbn in Hret; [| discriminate].
        destruct (State_init _ _ _ _) as [fields | e]; cbn in Hret; [| discriminate].
        injection Hret as <- _. reflexivity.
      * unfold States.to_native in Hret. rewrite Hparse in Hret. run_py.
        destruct (JSON_DECODE_EXCEPTIONS e); cbn in Hret; discriminate.
    + intros attrs t fields Hparse Hts Hinit.
      rewrite (States_to_native_parsed _ _ _ Hparse), Hbranch.
      run_py. rewrite Hts. cbn. rewrite Hinit. cbn.
      eexists; split; [reflexivity |]. split; reflexivity.
Qed.

(** C3. For a state_changed event whose new state is null,
    [States.from_event] (once the entity id is found and the origin looked
    up) gives a row whose state is the empty string, whose
    [last_updated_ts] is the event's fired-at as epoch seconds and whose
    [last_changed_ts] is null; and
    [StateAttributes.shared_attrs_bytes_from_event] gives the bytes of the
    empty object, whatever the exclusions, the dialect and the rest of the
    event. *)
Theorem States_removal_sentinel (event : core.Event) (v : core.PyVal)
    (idx : option Z) :
  core.getitem (core.data event) "entity_id" = Ok v ->
  EVENT_ORIGIN_TO_IDX_get (core.origin event) = Ok idx ->
  core.get (core.data event) "new_state" = Ok core.PNone ->
  (exists dbstate : States.row,
      States.from_event event = (Ok dbstate, []) /\
      States.state dbstate = Some "" /\
      States.last_updated_ts dbstate
      = Some (utc_to_timestamp (core.time_fired event)) /\
      States.last_changed_ts dbstate = None) /\
  (forall (exclude_attrs_by_domain : gmap string (gset string))
          (dialect : option SupportedDialect),
      StateAttributes.shared_attrs_bytes_from_event
        event exclude_attrs_by_domain dialect
      = (Ok empty_object_bytes, [])).
Proof.
  intros Hid Hidx Hnew. split.
  - unfold States.from_event.
    rewrite Hid, bind_lift_Ok, Hnew, bind_lift_Ok, Hidx, bind_lift_Ok.
    eexists; split; [reflexivity |]. cbn. repeat split; reflexivity.
  - intros excl dialect.
    unfold StateAttributes.shared_attrs_bytes_from_event. rewrite Hnew.
    reflexivity.
Qed.

End StatesFacts.

Lemma States_last_changed_collapse_witness :
  (exists dbstate : States.row,
      @States.from_event Reference.platform Sample.light_turned_on
      = (Ok dbstate, []) /\
      (States.last_changed_ts dbstate = None
       <-> core.last_changed Sample.light_on = core.last_updated Sample.light_on) /\
      (core.last_changed Sample.light_on <> core.last_updated Sample.light_on ->
       States.last_changed_ts dbstate
       = Some (Reference.utc_to_timestamp (core.last_changed Sample.light_on))) /\
      States.last_updated_ts dbstate
      = Some (Reference.utc_to_timestamp (core.last_updated Sample.light_on)))
  /\
  (exists s : core.State,
      @States.to_native Reference.platform Sample.light_row true
      = (Ok (Some s), []) /\
      core.last_changed s = Sample.new_year /\
      core.last_updated s = Sample.new_year).
Proof.
  destruct (@States_last_changed_collapse Reference.platform) as [Hwrite Hread].
  split.
  - apply (Hwrite Sample.light_turned_on (core.PStr "light.x") (Some 0%Z)
                  Sample.light_on); reflexivity.
  - destruct (Hread Sample.light_row true (or_introl eq_refl)) as [_ Hreturns].
    apply (Hreturns (core.PDict []) Sample.new_year ("light.x", "on", []));
      vm_compute; reflexivity.
Defined.

Lemma States_removal_sentinel_witness :
  (exists dbstate : States.row,
      @States.from_event Reference.platform Sample.light_removed
      = (Ok dbstate, []) /\
      States.state dbstate = Some "" /\
      States.last_updated_ts dbstate
      = Some (Reference.utc_to_timestamp Sample.new_year) /\
      States.last_changed_ts dbstate = None) /\
  (forall (exclude_attrs_by_domain : gmap string (gset string))
          (dialect : option SupportedDialect),
      @StateAttributes.shared_attrs_bytes_from_event Reference.platform
        Sample.light_removed exclude_attrs_by_domain dialect
      = (Ok empty_object_bytes, [])).
Proof.
  apply (@States_removal_sentinel Reference.platform Sample.light_removed
           (core.PStr "light.x") (Some 0%Z)); reflexivity.
Defined.

(** ** Unparsable payload rows *)

Section PayloadFacts.
Context `{Platform}.

(** C10. An [EventData] or [StateAttributes] row whose stored text makes
    [json_loads] raise one of [JSON_DECODE_EXCEPTIONS] is read by
    [to_native] as the empty dictionary: the result is [{}], not [None], the
    exception is logged and not propagated. *)
Theorem payload_to_native_empty_on_decode_error (e : exn) :
  JSON_DECODE_EXCEPTIONS e = true ->
  (forall self : EventData.row,
      json_loads (EventData.shared_data self) = Raise e ->
      EventData.to_native self
      = (Ok (core.PDict []),
         [LogException "Error converting row to event data: %s"])) /\
  (forall self : StateAttributes.row,
      json_loads (StateAttributes.shared_attrs self) = Raise e ->
      StateAttributes.to_native self
      = (Ok (core.PDict []),
         [LogException "Error converting row to state attributes: %s"])).
Proof.
  intros Hhandled. split; intros self Hloads.
  - unfold EventData.to_native. rewrite Hloads. run_py. rewrite Hhandled.
    reflexivity.
  - unfold StateAttributes.to_native. rewrite Hloads. run_py. rewrite Hhandled.
    reflexivity.
Qed.

End PayloadFacts.

Lemma payload_to_native_empty_on_decode_error_witness :
  @EventData.to_native Reference.platform
    (EventData.mkrow (Some 7%Z) (Some 84696351%Z) (Some "{"))
  = (Ok (core.PDict []), [LogException "Error converting row to event data: %s"])
  /\
  @StateAttributes.to_native Reference.platform
    (StateAttributes.mkrow (Some 7%Z) (Some 84696351%Z) (Some "{"))
  = (Ok (core.PDict []),
     [LogException "Error converting row to state attributes: %s"]).
Proof.
  destruct (@payload_to_native_empty_on_decode_error Reference.platform
              JSONDecodeError eq_refl) as [Hevent Hattrs].
  split.
  - apply Hevent. reflexivity.
  - apply Hattrs. reflexivity.
Defined.

(** ** The origin index *)

Section OriginFacts.
Context `{Platform}.

(** C8, as the code has it. [Events.from_event] stores the index of the
    event's origin in the fixed order local, remote: 0 for local, 1 for
    remote. For an origin outside this mapping the lookup is a [dict.get]:
    an origin that can be hashed raises nothing, and the record is produced
    with a null origin index; an origin that cannot be hashed makes the
    lookup raise [TypeError], and no record is produced. *)
Theorem Events_from_event_origin_idx (event : core.Event) :
  match core.origin event with
  | core.Member core.local =>
      exists dbevent : Events.row,
        Events.from_event event = (Ok dbevent, []) /\
        Events.origin_idx dbevent = Some 0%Z
  | core.Member core.remote =>
      exists dbevent : Events.row,
        Events.from_event event = (Ok dbevent, []) /\
        Events.origin_idx dbevent = Some 1%Z
  | core.Foreign _ =>
      exists dbevent : Events.row,
        Events.from_event event = (Ok dbevent, []) /\
        Events.origin_idx dbevent = None
  | core.Unhashable _ =>
      Events.from_event event = (Raise TypeError, [])
  end.
Proof.
  unfold Events.from_event.
  destruct (core.origin event) as [[] | repr | repr]; cbn;
    try (eexists; split; reflexivity); reflexivity.
Qed.

(** A record with a null origin index and no legacy origin string cannot be
    read back: [EVENT_ORIGIN_ORDER[None]] raises [TypeError], which
    [Events.to_native] does not handle unless it is one of
    [JSON_DECODE_EXCEPTIONS]. *)
Lemma Events_to_native_null_origin_idx (self : Events.row) (validate : bool) :
  Events.event_data self = None ->
  Events.origin self = None ->
  Events.origin_idx self = None ->
  JSON_DECODE_EXCEPTIONS TypeError = false ->
  Events.to_native self validate = (Raise TypeError, []).
Proof.
  intros Hdata Horigin Hidx Hhandled. unfold Events.to_native.
  rewrite Hdata, Horigin, Hidx. run_py. rewrite Hhandled. reflexivity.
Qed.

End OriginFacts.

(** An origin that cannot be hashed, a list: the lookup raises and no
    record is produced. *)
Example Events_from_event_list_origin :
  @Events.from_event Reference.platform Sample.list_origin_event
  = (Raise TypeError, []).
Proof. reflexivity. Qed.

(** The claim read at an origin outside the mapping, [None]: the event is
    recorded, with a null origin index, and nothing is raised. *)
Lemma Events_from_event_unknown_origin :
  core.origin Sample.stray_origin_event = core.Foreign "None" /\
  dict_get EVENT_ORIGIN_TO_IDX (core.origin Sample.stray_origin_event) = None /\
  @Events.from_event Reference.platform Sample.stray_origin_event
  = (Ok
    {| Events.event_id := None;
       Events.event_type := Some "call_service";
       Events.event_data := None;
       Events.origin := None;
       Events.origin_idx := None;
       Events.time_fired := None;
       Events.time_fired_ts := Some 1704067200%float;
       Events.context_id := core.id Sample.ctx;
       Events.context_user_id := None;
       Events.context_parent_id := None;
       Events.data_id := None;
       Events.event_data_rel := None |}, []).
Proof. split; [reflexivity |]. split; vm_compute; reflexivity. Qed.

(** ** Reading a state row whose attributes do not parse *)

Section UnparsedAttributesFacts.
Context `{Platform}.

(** C5, as the code has it. A state row whose inline attributes text is
    not empty and makes [json_loads] raise one of [JSON_DECODE_EXCEPTIONS]
    is read by [States.to_native] as [None]: the error is logged, nothing
    is raised. The shared payload row behind [state_attributes] is not read
    by [States.to_native]: the result is the same whatever it holds. *)
Theorem States_to_native_null_on_inline_decode_error :
  (forall (self : States.row) (validate : bool) (e : exn),
      truthy_str (States.attributes self) = true ->
      json_loads (States.attributes self) = Raise e ->
      JSON_DECODE_EXCEPTIONS e = true ->
      States.to_native self validate
      = (Ok None, [LogException "Error converting row to state: %s"])) /\
  (forall (state_id : option Z) (entity_id : core.PyVal)
          (state attributes : option string)
          (event_id : option Z) (last_changed : option datetime)
          (last_changed_ts : option float) (last_updated : option datetime)
          (last_updated_ts : option float) (old_state_id attributes_id : option Z)
          (context_id context_user_id context_parent_id : option string)
          (origin_idx : option Z) (shared shared' : option StateAttributes.row)
          (validate : bool),
      States.to_native
        (States.mkrow state_id entity_id state attributes event_id last_changed
           last_changed_ts last_updated last_updated_ts old_state_id
           attributes_id context_id context_user_id context_parent_id
           origin_idx shared) validate
      = States.to_native
          (States.mkrow state_id entity_id state attributes event_id
             last_changed last_changed_ts last_updated last_updated_ts
             old_state_id attributes_id context_id context_user_id
             context_parent_id origin_idx shared') validate).
Proof.
  split.
  - intros self validate e. apply States_to_native_unparsed.
  - reflexivity.
Qed.

End UnparsedAttributesFacts.

Lemma States_to_native_null_on_inline_decode_error_witness :
  @States.to_native Reference.platform Sample.light_row_inline true
  = (Ok None, [LogException "Error converting row to state: %s"]).
Proof.
  destruct (@States_to_native_null_on_inline_decode_error Reference.platform)
    as [Hinline _].
  apply (Hinline Sample.light_row_inline true JSONDecodeError); reflexivity.
Defined.

(** The claim read on the shared payload row: the payload of
    [Sample.light_row_shared] does not parse; the payload row is read as
    the empty dictionary, and the state row is read back as a state with no
    attributes, nothing logged. *)
Lemma States_to_native_ignores_unparsable_shared_attrs :
  @json_loads Reference.platform
    (StateAttributes.shared_attrs Sample.truncated_attrs)
  = Raise JSONDecodeError /\
  @JSON_DECODE_EXCEPTIONS Reference.platform JSONDecodeError = true /\
  States.state_attributes Sample.light_row_shared = Some Sample.truncated_attrs /\
  @StateAttributes.to_native Reference.platform Sample.truncated_attrs
  = (Ok (core.PDict []),
     [LogException "Error converting row to state attributes: %s"]) /\
  @States.to_native Reference.platform Sample.light_row_shared true
  = (Ok (Some (core.mkState "light.x" "on" [] Sample.new_year Sample.new_year
                 Sample.ctx)), []).
Proof. repeat split; vm_compute; reflexivity. Qed.

(** ** The attribute and data payloads *)

Section EncodingFacts.
Context `{Platform}.

(** The top level of a stripped dict: the items whose value is not [None],
    each value stripped in turn. *)
Lemma strip_null_dict (d : list (string * core.PyVal)) :
  strip_null (core.PDict d)
  = core.PDict (map (fun kv => (kv.1, strip_null kv.2))
                    (List.filter (fun kv => negb (is_none kv.2)) d)).
Proof.
  cbn. f_equal.
  induction d as [| [k x] d IH]; [reflexivity |].
  destruct x; cbn; rewrite IH; reflexivity.
Qed.

(** What is kept of the attributes: the items whose key is in neither
    exclusion set. *)
Lemma without_excluded_spec (by_domain global : gset string)
    (attributes : list (string * core.PyVal)) (k : string) (v : core.PyVal) :
  (k, v) ∈ StateAttributes.without_excluded (by_domain ∪ global) attributes
  <-> ((k, v) ∈ attributes /\ (k ∉ by_domain) /\ (k ∉ global)).
Proof.
  unfold StateAttributes.without_excluded.
  rewrite list_elem_of_filter; cbn. rewrite not_elem_of_union. tauto.
Qed.

(** [shared_attrs_bytes_from_event] up to the size check. *)
Lemma shared_attrs_bytes_encoded (event : core.Event) (st : core.State)
    (exclude_attrs_by_domain : gmap string (gset string))
    (dialect : option SupportedDialect) (parts : string * string) (b : bytes) :
  core.get (core.data event) "new_state" = Ok (core.PState st) ->
  split_entity_id (core.entity_id st) = Ok parts ->
  (if decide (dialect = Some PSQL_DIALECT)
   then json_bytes_strip_null else json_bytes)
    (core.PDict
       (StateAttributes.without_excluded
          (default ∅ (exclude_attrs_by_domain !! parts.1)
             ∪ ALL_DOMAIN_EXCLUDE_ATTRS)
          (core.attributes st))) = Ok b ->
  StateAttributes.shared_attrs_bytes_from_event
    event exclude_attrs_by_domain dialect
  = if (len b >? MAX_STATE_ATTRS_BYTES)%Z
    then (Ok empty_object_bytes, [LogWarning StateAttributes.oversize_warning])
    else (Ok b, []).
Proof.
  intros Hnew Hsplit Hencoded.
  unfold StateAttributes.shared_attrs_bytes_from_event.
  rewrite Hnew. run_py. rewrite Hsplit. cbn. rewrite Hencoded. cbn.
  destruct (len b >? MAX_STATE_ATTRS_BYTES)%Z; reflexivity.
Qed.

(** C4. When the attributes of the new state, once the excluded keys are
    dropped and the rest encoded, take more than 16384 bytes,
    [shared_attrs_bytes_from_event] returns the bytes of the empty object
    and logs one warning; it raises nothing. *)
Theorem shared_attrs_oversized_replaced (event : core.Event) (st : core.State)
    (exclude_attrs_by_domain : gmap string (gset string))
    (dialect : option SupportedDialect) (parts : string * string) (b : bytes) :
  core.get (core.data event) "new_state" = Ok (core.PState st) ->
  split_entity_id (core.entity_id st) = Ok parts ->
  (if decide (dialect = Some PSQL_DIALECT)
   then json_bytes_strip_null else json_bytes)
    (core.PDict
       (StateAttributes.without_excluded
          (default ∅ (exclude_attrs_by_domain !! parts.1)
             ∪ ALL_DOMAIN_EXCLUDE_ATTRS)
          (core.attributes st))) = Ok b ->
  (len b > 16384)%Z ->
  StateAttributes.shared_attrs_bytes_from_event
    event exclude_attrs_by_domain dialect
  = (Ok empty_object_bytes, [LogWarning StateAttributes.oversize_warning]).
Proof.
  intros Hnew Hsplit Hencoded Hlen.
  rewrite (shared_attrs_bytes_encoded _ _ _ _ _ _ Hnew Hsplit Hencoded).
  replace (len b >? MAX_STATE_ATTRS_BYTES)%Z with true; [reflexivity |].
  symmetry. unfold MAX_STATE_ATTRS_BYTES. apply Z.gtb_lt. lia.
Qed.

(** C9. For a state_changed event with a non-null new state, the
    attributes that reach the encoder are those whose key is neither in the
    exclusion set of the state's domain nor in the global one. Under the
    PostgreSQL dialect the encoding is the strip-null one, which leaves out
    the keys whose value is null; under any other dialect, and under none,
    it is the plain encoding of all the kept attributes, null-valued keys
    included. The encoding of event data follows the same dialect rule. *)
Theorem payload_encoding_by_dialect :
  (forall (event : core.Event) (st : core.State)
          (exclude_attrs_by_domain : gmap string (gset string))
          (dialect : option SupportedDialect) (parts : string * string),
      core.get (core.data event) "new_state" = Ok (core.PState st) ->
      split_entity_id (core.entity_id st) = Ok parts ->
      let kept :=
        StateAttributes.without_excluded
          (default ∅ (exclude_attrs_by_domain !! parts.1)
             ∪ ALL_DOMAIN_EXCLUDE_ATTRS)
          (core.attributes st) in
      (forall (k : string) (v : core.PyVal),
          (k, v) ∈ kept
          <-> ((k, v) ∈ core.attributes st /\
               (k ∉ default ∅ (exclude_attrs_by_domain !! parts.1)) /\
               (k ∉ ALL_DOMAIN_EXCLUDE_ATTRS))) /\
      (forall b : bytes,
          (len b <= 16384)%Z ->
          (dialect = Some POSTGRESQL ->
           json_bytes
             (core.PDict (map (fun kv => (kv.1, strip_null kv.2))
                              (List.filter (fun kv => negb (is_none kv.2)) kept)))
           = Ok b ->
           StateAttributes.shared_attrs_bytes_from_event
             event exclude_attrs_by_domain dialect = (Ok b, [])) /\
          (dialect <> Some POSTGRESQL ->
           json_bytes (core.PDict kept) = Ok b ->
           StateAttributes.shared_attrs_bytes_from_event
             event exclude_attrs_by_domain dialect = (Ok b, [])))) /\
  (forall (event : core.Event) (dialect : option SupportedDialect),
      (dialect = Some POSTGRESQL ->
       EventData.shared_data_bytes_from_event event dialect
       = json_bytes (strip_null (core.data event))) /\
      (dialect <> Some POSTGRESQL ->
       EventData.shared_data_bytes_from_event event dialect
       = json_bytes (core.data event))).
Proof.
  split.
  - intros event st excl dialect parts Hnew Hsplit kept.
    split; [intros k v; apply without_excluded_spec |].
    intros b Hlen.
    assert (Hfits : (len b >? MAX_STATE_ATTRS_BYTES)%Z = false).
    { unfold MAX_STATE_ATTRS_BYTES.
      destruct (len b >? 16384)%Z eqn:Hgt; [| reflexivity].
      apply Z.gtb_lt in Hgt. lia. }
    split; intros Hdialect Hencoded.
    + rewrite (shared_attrs_bytes_encoded event st excl dialect parts b Hnew Hsplit).
      * rewrite Hfits. reflexivity.
      * unfold PSQL_DIALECT. rewrite decide_True by assumption.
        unfold json_bytes_strip_null. rewrite strip_null_dict. exact Hencoded.
    + rewrite (shared_attrs_bytes_encoded event st excl dialect parts b Hnew Hsplit).
      * rewrite Hfits. reflexivity.
      * unfold PSQL_DIALECT. rewrite decide_False by assumption. exact Hencoded.
  - intros event dialect. unfold EventData.shared_data_bytes_from_event.
    split; intros Hdialect.
    + rewrite decide_True by assumption. reflexivity.
    + rewrite decide_False by assumption. reflexivity.
Qed.

End EncodingFacts.

Lemma shared_attrs_oversized_replaced_witness :
  @StateAttributes.shared_attrs_bytes_from_event Reference.platform
    Sample.camera_changed ∅ (Some SQLITE)
  = (Ok empty_object_bytes, [LogWarning StateAttributes.oversize_warning]).
Proof.
  apply (@shared_attrs_oversized_replaced Reference.platform
           Sample.camera_changed Sample.camera_state ∅ (Some SQLITE)
           ("camera", "door") Sample.camera_bytes).
  - reflexivity.
  - reflexivity.
  - vm_compute; reflexivity.
  - vm_compute; reflexivity.
Defined.

Lemma payload_encoding_by_dialect_witness :
  @StateAttributes.shared_attrs_bytes_from_event Reference.platform
    Sample.sensor_changed Sample.exclusions (Some POSTGRESQL)
  = (Ok Sample.sensor_bytes_stripped, []) /\
  @StateAttributes.shared_attrs_bytes_from_event Reference.platform
    Sample.sensor_changed Sample.exclusions (Some SQLITE)
  = (Ok Sample.sensor_bytes, []) /\
  @EventData.shared_data_bytes_from_event Reference.platform
    Sample.sensor_changed None
  = Reference.json_bytes (core.data Sample.sensor_changed).
Proof.
  destruct (@payload_encoding_by_dialect Reference.platform) as [Hattrs Hdata].
  split; [| split].
  - destruct (Hattrs Sample.sensor_changed Sample.sensor_state Sample.exclusions
                (Some POSTGRESQL) ("sensor", "power") eq_refl eq_refl)
      as [_ Hbytes].
    destruct (Hbytes Sample.sensor_bytes_stripped) as [Hpsql _].
    + vm_compute; discriminate.
    + apply Hpsql; [reflexivity | vm_compute; reflexivity].
  - destruct (Hattrs Sample.sensor_changed Sample.sensor_state Sample.exclusions
                (Some SQLITE) ("sensor", "power") eq_refl eq_refl)
      as [_ Hbytes].
    destruct (Hbytes Sample.sensor_bytes) as [_ Hother].
    + vm_compute; discriminate.
    + apply Hother; [discriminate | vm_compute; reflexivity].
  - destruct (Hdata Sample.sensor_changed None) as [_ Hother].
    apply Hother. discriminate.
Defined.

(** ** The entity ids of a recorder run *)

Section RecorderRunsFacts.

Lemma sql_ge_true (a b : option datetime) :
  sql_ge a b = true <-> exists x y : datetime, a = Some x /\ b = Some y /\ (y <= x)%Z.
Proof.
  destruct a as [x |], b as [y |]; cbn.
  - rewrite Z.leb_le. split.
    + intros Hle. exists x, y. auto.
    + intros (x' & y' & [= <-] & [= <-] & Hle). exact Hle.
  - split; [discriminate | intros (? & ? & _ & [=] & _)].
  - split; [discriminate | intros (? & ? & [=] & _)].
  - split; [discriminate | intros (? & ? & [=] & _)].
Qed.

Lemma sql_lt_true (a b : option datetime) :
  sql_lt a b = true <-> exists x y : datetime, a = Some x /\ b = Some y /\ (x < y)%Z.
Proof.
  destruct a as [x |], b as [y |]; cbn.
  - rewrite Z.ltb_lt. split.
    + intros Hlt. exists x, y. auto.
    + intros (x' & y' & [= <-] & [= <-] & Hlt). exact Hlt.
  - split; [discriminate | intros (? & ? & _ & [=] & _)].
  - split; [discriminate | intros (? & ? & [=] & _)].
  - split; [discriminate | intros (? & ? & [=] & _)].
Qed.

(** C6, as the code has it. For a persisted run, over state rows that carry
    their last-updated instant in the [last_updated] column,
    [RecorderRuns.entity_ids] returns, each once, the entity ids of the rows
    whose last-updated is at or after the start of the run and before
    [point_in_time] when it is given, before the end of the run when it is
    not and the run has ended, and unbounded above otherwise. *)
Theorem RecorderRuns_entity_ids_selection
    (self : RecorderRuns.row) (states : RecorderRuns.Session)
    (point_in_time : option datetime) :
  Forall (fun s => States.last_updated s <> None) states ->
  exists ids : list core.PyVal,
    RecorderRuns.entity_ids self (Some states) point_in_time = Ok ids /\
    NoDup ids /\
    forall e : core.PyVal,
      e ∈ ids <->
      exists (s : States.row) (u : datetime),
        s ∈ states /\ States.entity_id s = e /\
        States.last_updated s = Some u /\
        (exists t : datetime, RecorderRuns.start self = Some t /\ (t <= u)%Z) /\
        RecorderRuns.before_upper_bound self point_in_time u.
Proof.
  intros _. unfold RecorderRuns.entity_ids.
  eexists; split; [reflexivity |]. split; [apply NoDup_remove_dups |].
  intros e. rewrite elem_of_remove_dups.
  change (map States.entity_id ?l) with (States.entity_id <$> l).
  rewrite list_elem_of_fmap. unfold RecorderRuns.before_upper_bound.
  split.
  - intros (s & -> & Hs). exists s.
    destruct point_in_time as [p |]; [| destruct (RecorderRuns.end_ self) as [en |] eqn:Hend].
    + apply list_elem_of_In, filter_In in Hs. destruct Hs as [Hs Hlt].
      apply filter_In in Hs. destruct Hs as [Hin Hge].
      apply sql_lt_true in Hlt. destruct Hlt as (u & p' & Hu & [= <-] & Hlt).
      apply sql_ge_true in Hge. destruct Hge as (u' & t & Hu' & Ht & Hle).
      rewrite Hu in Hu'. injection Hu' as <-.
      exists u. repeat split; auto.
      * apply list_elem_of_In; exact Hin.
      * exists t; auto.
    + apply list_elem_of_In, filter_In in Hs. destruct Hs as [Hs Hlt].
      apply filter_In in Hs. destruct Hs as [Hin Hge].
      apply sql_lt_true in Hlt. destruct Hlt as (u & p' & Hu & [= <-] & Hlt).
      apply sql_ge_true in Hge. destruct Hge as (u' & t & Hu' & Ht & Hle).
      rewrite Hu in Hu'. injection Hu' as <-.
      exists u. repeat split; auto.
      * apply list_elem_of_In; exact Hin.
      * exists t; auto.
    + apply list_elem_of_In, filter_In in Hs. destruct Hs as [Hin Hge].
      apply sql_ge_true in Hge. destruct Hge as (u & t & Hu & Ht & Hle).
      exists u. repeat split; auto.
      * apply list_elem_of_In; exact Hin.
      * exists t; auto.
  - intros (s & u & Hin & <- & Hu & (t & Ht & Hle) & Hupper).
    exists s. split; [reflexivity |].
    apply list_elem_of_In in Hin.
    assert (Hge : sql_ge (States.last_updated s) (RecorderRuns.start self) = true).
    { apply sql_ge_true. exists u, t. auto. }
    destruct point_in_time as [p |]; [| destruct (RecorderRuns.end_ self) as [en |] eqn:Hend].
    + apply list_elem_of_In, filter_In. split.
      * apply filter_In. auto.
      * apply sql_lt_true. exists u, p. auto.
    + apply list_elem_of_In, filter_In. split.
      * apply filter_In. auto.
      * apply sql_lt_true. exists u, en. auto.
    + apply list_elem_of_In, filter_In. auto.
Qed.

End RecorderRunsFacts.

Lemma RecorderRuns_entity_ids_selection_witness :
  exists ids : list core.PyVal,
    RecorderRuns.entity_ids Sample.short_run (Some Sample.recorded_states) None
    = Ok ids /\
    NoDup ids /\
    forall e : core.PyVal,
      e ∈ ids <->
      exists (s : States.row) (u : datetime),
        s ∈ Sample.recorded_states /\ States.entity_id s = e /\
        States.last_updated s = Some u /\
        (exists t : datetime,
            RecorderRuns.start Sample.short_run = Some t /\ (t <= u)%Z) /\
        RecorderRuns.before_upper_bound Sample.short_run None u.
Proof.
  apply (RecorderRuns_entity_ids_selection Sample.short_run
           Sample.recorded_states None).
  repeat constructor; discriminate.
Defined.

(** The claim read at a [point_in_time] after the end of the run: the
    interval of the specification ends with the run and holds three rows;
    [entity_ids] goes on to [point_in_time] and also returns the entity
    updated after the run had ended. *)
Lemma RecorderRuns_entity_ids_past_run_end :
  RecorderRuns.entity_ids Sample.short_run (Some Sample.recorded_states)
    (Some (Sample.new_year + Sample.seconds 20)%Z)
  = Ok [core.PStr "light.y"; core.PStr "light.x"; core.PStr "switch.z"] /\
  RecorderRuns.entity_ids_active_during Sample.short_run Sample.recorded_states
    (Some (Sample.new_year + Sample.seconds 20)%Z)
    (Sample.new_year + Sample.seconds 30)%Z
  = [core.PStr "light.y"; core.PStr "light.x"].
Proof. split; vm_compute; reflexivity. Qed.

(** ** One aggregate row per series and bucket *)

Section StatisticsFacts.

Lemma index_key_bucket (name : string) (r : StatisticsBase.row) :
  Store.index_key (mkIndex name ["metadata_id"; "start"] true) r = Store.bucket_key r.
Proof. reflexivity. Qed.

Lemma bucket_key_collides (r : StatisticsBase.row) (m : Z) (s : datetime) :
  Store.keys_collide (Store.bucket_key r) [Some (SqlInteger m); Some (SqlDateTime s)]
  = true
  <-> StatisticsBase.metadata_id r = Some m /\ StatisticsBase.start r = Some s.
Proof.
  unfold Store.bucket_key.
  destruct (StatisticsBase.metadata_id r) as [m' |],
           (StatisticsBase.start r) as [s' |]; cbn.
  - rewrite andb_true_r, andb_true_iff, !Z.eqb_eq.
    split; [intros [-> ->]; auto | intros [[= ->] [= ->]]; auto].
  - split; [rewrite andb_false_r; discriminate | intros [_ [=]]].
  - split; [discriminate | intros [[=] _]].
  - split; [discriminate | intros [[=] _]].
Qed.

Lemma bucket_keys_collide (r' r : StatisticsBase.row) :
  Store.keys_collide (Store.bucket_key r') (Store.bucket_key r) = true
  <-> exists (m : Z) (s : datetime),
      (StatisticsBase.metadata_id r' = Some m /\ StatisticsBase.start r' = Some s)
      /\ StatisticsBase.metadata_id r = Some m /\ StatisticsBase.start r = Some s.
Proof.
  split.
  - unfold Store.bucket_key at 2.
    destruct (StatisticsBase.metadata_id r) as [m |] eqn:Hm,
             (StatisticsBase.start r) as [s |] eqn:Hs; cbn.
    + intros Hcollide. exists m, s. split; [| auto].
      apply bucket_key_collides. exact Hcollide.
    + unfold Store.bucket_key. destruct (StatisticsBase.metadata_id r'),
        (StatisticsBase.start r'); cbn; rewrite ?andb_false_r; discriminate.
    + unfold Store.bucket_key. destruct (StatisticsBase.metadata_id r'),
        (StatisticsBase.start r'); cbn; discriminate.
    + unfold Store.bucket_key. destruct (StatisticsBase.metadata_id r'),
        (StatisticsBase.start r'); cbn; discriminate.
  - intros (m & s & Hr' & Hm & Hs).
    unfold Store.bucket_key at 2. rewrite Hm, Hs. cbn.
    apply bucket_key_collides. exact Hr'.
Qed.

(** A write under one unique index on (metadata_id, start). *)
Lemma insert_under_bucket_index (name : string) (t : Store.table)
    (r : StatisticsBase.row) :
  Store.insert [mkIndex name ["metadata_id"; "start"] true] t r
  = if existsb (fun r' => Store.keys_collide (Store.bucket_key r') (Store.bucket_key r)) t
    then Raise IntegrityError
    else Ok (t ++ [r]).
Proof.
  unfold Store.insert, Store.violates. cbn [existsb index_unique andb].
  rewrite orb_false_r. reflexivity.
Qed.

Lemma rows_at_spec (m : Z) (s : datetime) (t : Store.table)
    (r : StatisticsBase.row) :
  In r (Store.rows_at m s t)
  <-> In r t /\ StatisticsBase.metadata_id r = Some m
      /\ StatisticsBase.start r = Some s.
Proof.
  unfold Store.rows_at. rewrite filter_In.
  rewrite bucket_key_collides. reflexivity.
Qed.

Lemma reachable_rows_at (name : string) (t : Store.table) :
  Store.reachable [mkIndex name ["metadata_id"; "start"] true] t ->
  forall (m : Z) (s : datetime), length (Store.rows_at m s t) <= 1.
Proof.
  induction 1 as [| t r t' _ IH Hinsert]; intros m s; [cbn; lia |].
  rewrite insert_under_bucket_index in Hinsert.
  destruct (existsb _ t) eqn:Hfresh; [discriminate |].
  injection Hinsert as <-.
  unfold Store.rows_at. rewrite List.filter_app, List.length_app.
  fold (Store.rows_at m s t). fold (Store.rows_at m s [r]).
  assert (Hone : length (Store.rows_at m s [r]) <= 1).
  { unfold Store.rows_at. cbn [List.filter].
    match goal with |- context [if ?c then _ else _] => destruct c end;
      cbn; lia. }
  destruct (Store.rows_at m s [r]) as [| r0 rest] eqn:Hlast.
  - cbn. specialize (IH m s). lia.
  - assert (Hr0 : In r0 (Store.rows_at m s [r])) by (rewrite Hlast; left; reflexivity).
    apply rows_at_spec in Hr0. destruct Hr0 as [[<- | []] [Hm Hs]].
    destruct (Store.rows_at m s t) as [| r' others] eqn:Hold; [cbn in *; lia |].
    exfalso.
    assert (Hr' : In r' (Store.rows_at m s t)) by (rewrite Hold; left; reflexivity).
    apply rows_at_spec in Hr'. destruct Hr' as [Hin Hkey].
    assert (Hfound : existsb
              (fun r' => Store.keys_collide (Store.bucket_key r') (Store.bucket_key r)) t
            = true).
    { apply existsb_exists. exists r'. split; [exact Hin |].
      apply bucket_keys_collide. exists m, s. auto. }
    rewrite Hfound in Hfresh. discriminate.
Qed.

Lemma insert_conflict (name : string) (t : Store.table)
    (r r' : StatisticsBase.row) (m : Z) (s : datetime) :
  In r' t ->
  StatisticsBase.metadata_id r' = Some m -> StatisticsBase.start r' = Some s ->
  StatisticsBase.metadata_id r = Some m -> StatisticsBase.start r = Some s ->
  Store.insert [mkIndex name ["metadata_id"; "start"] true] t r
  = Raise IntegrityError.
Proof.
  intros Hin Hm' Hs' Hm Hs. rewrite insert_under_bucket_index.
  replace (existsb _ t) with true; [reflexivity |].
  symmetry. apply existsb_exists. exists r'. split; [exact Hin |].
  apply bucket_keys_collide. exists m, s. auto.
Qed.

(** C7. The long-term table has one-hour buckets, the short-term table
    five-minute ones, and each declares a unique index on
    (metadata_id, start). Under it, a table built by writes holds at most
    one row per (metadata reference, bucket start) pair, and a write whose
    pair is already stored is answered by a conflict error: the stored rows
    stay as they are. *)
Theorem statistics_one_row_per_bucket (indexes : list Index) :
  indexes = Statistics.__table_args__ \/
  indexes = StatisticsShortTerm.__table_args__ ->
  (Statistics.duration = 3600%Z /\ StatisticsShortTerm.duration = 300%Z) /\
  (exists name : string,
      indexes = [mkIndex name ["metadata_id"; "start"] true]) /\
  (forall t : Store.table,
      Store.reachable indexes t ->
      forall (m : Z) (s : datetime), length (Store.rows_at m s t) <= 1) /\
  (forall (t : Store.table) (r r' : StatisticsBase.row) (m : Z) (s : datetime),
      In r' t ->
      StatisticsBase.metadata_id r' = Some m ->
      StatisticsBase.start r' = Some s ->
      StatisticsBase.metadata_id r = Some m ->
      StatisticsBase.start r = Some s ->
      Store.insert indexes t r = Raise IntegrityError).
Proof.
  intros Hdeclared. split; [split; reflexivity |].
  destruct Hdeclared as [-> | ->];
    (split; [eexists; reflexivity |]);
    (split; [apply reachable_rows_at | apply insert_conflict]).
Qed.

End StatisticsFacts.

Lemma statistics_one_row_per_bucket_witness :
  length (Store.rows_at 1 Sample.new_year Sample.hourly_table) <= 1 /\
  Store.insert Statistics.__table_args__ Sample.hourly_table
    Sample.first_hour_again
  = Raise IntegrityError.
Proof.
  destruct (statistics_one_row_per_bucket Statistics.__table_args__
              (or_introl eq_refl)) as (_ & _ & Honce & Hconflict).
  split.
  - apply Honce.
    apply (Store.reachable_insert _ [Sample.first_hour] Sample.second_hour);
      [| reflexivity].
    apply (Store.reachable_insert _ [] Sample.first_hour); [| reflexivity].
    apply Store.reachable_empty.
  - apply (Hconflict Sample.hourly_table Sample.first_hour_again
             Sample.first_hour 1%Z Sample.new_year);
      [left; reflexivity | reflexivity ..].
Defined.

(** * Further properties of the module *)

(** ** Reading event rows *)

Section EventsReadFacts.
Context `{Platform}.

(** [Events.to_native] on a row without inline data and without a legacy
    origin string: the origin comes from the index. *)
Lemma Events_to_native_by_index (self : Events.row) (validate : bool) :
  truthy_str (Events.event_data self) = false ->
  truthy_str (Events.origin self) = false ->
  Events.to_native self validate
  = try_except
      (origin <- lift (list_getitem EVENT_ORIGIN_ORDER (Events.origin_idx self));;
       fired <- lift (utc_from_timestamp (Events.time_fired_ts self));;
       ret (Some (core.mkEvent (Events.event_type self) (core.PDict [])
                    (core.Member origin) fired
                    (Context_init (Events.context_id self)
                                  (Events.context_user_id self)
                                  (Events.context_parent_id self)))))%py
      JSON_DECODE_EXCEPTIONS
      (log (LogException "Error converting to event: %s");; ret None)%py.
Proof.
  intros Hdata Horigin. unfold Events.to_native. rewrite Hdata, bind_lift_Ok.
  destruct (Events.origin self) as [o |]; [| reflexivity].
  rewrite Horigin. reflexivity.
Qed.

(** X1. A row whose inline event data is not empty and makes [json_loads]
    raise one of [JSON_DECODE_EXCEPTIONS] is read by [Events.to_native] as
    [None], with one logged exception; nothing is raised, whatever the
    other columns hold. *)
Theorem Events_to_native_null_on_decode_error
    (self : Events.row) (validate : bool) (e : exn) :
  truthy_str (Events.event_data self) = true ->
  json_loads (Events.event_data self) = Raise e ->
  JSON_DECODE_EXCEPTIONS e = true ->
  Events.to_native self validate
  = (Ok None, [LogException "Error converting to event: %s"]).
Proof.
  intros Htruthy Hloads Hhandled. unfold Events.to_native.
  rewrite Htruthy, Hloads. run_py. rewrite Hhandled. reflexivity.
Qed.

(** X2. With no legacy origin string, the stored index is used as a Python
    list index into [EVENT_ORIGIN_ORDER]: 0 and -2 read as local, 1 and -1
    as remote. The event comes with the context the [Context] constructor
    builds from the context columns: a row with a null or empty
    [context_id] is read with a newly drawn ULID for an id. *)
Theorem Events_to_native_origin_of_index
    (self : Events.row) (validate : bool) (i : Z) (fired : datetime) :
  truthy_str (Events.event_data self) = false ->
  truthy_str (Events.origin self) = false ->
  Events.origin_idx self = Some i ->
  (-2 <= i <= 1)%Z ->
  utc_from_timestamp (Events.time_fired_ts self) = Ok fired ->
  Events.to_native self validate
  = (Ok (Some (core.mkEvent (Events.event_type self) (core.PDict [])
                 (core.Member (if Z.even i then core.local else core.remote))
                 fired
                 (Context_init (Events.context_id self)
                               (Events.context_user_id self)
                               (Events.context_parent_id self)))), []).
Proof.
  intros Hdata Horigin Hidx Hrange Hfired.
  rewrite (Events_to_native_by_index _ _ Hdata Horigin), Hidx.
  assert (Hcases : i = (-2)%Z \/ i = (-1)%Z \/ i = 0%Z \/ i = 1%Z) by lia.
  destruct Hcases as [-> | [-> | [-> | ->]]];
    run_py; rewrite Hfired; reflexivity.
Qed.

(** X3. With no legacy origin string, an index outside -2..1 makes
    [Events.to_native] raise [IndexError] (it is not among the exceptions
    the method handles): the row is not read as [None], and nothing is
    logged. *)
Theorem Events_to_native_index_out_of_range
    (self : Events.row) (validate : bool) (i : Z) :
  truthy_str (Events.event_data self) = false ->
  truthy_str (Events.origin self) = false ->
  Events.origin_idx self = Some i ->
  (i < -2 \/ 1 < i)%Z ->
  JSON_DECODE_EXCEPTIONS IndexError = false ->
  Events.to_native self validate = (Raise IndexError, []).
Proof.
  intros Hdata Horigin Hidx Hrange Hhandled.
  rewrite (Events_to_native_by_index _ _ Hdata Horigin), Hidx.
  assert (Hget : list_getitem EVENT_ORIGIN_ORDER (Some i) = Raise IndexError).
  { unfold list_getitem.
    change (Z.of_nat (length EVENT_ORIGIN_ORDER)) with 2%Z. cbv zeta.
    destruct (Z.ltb_spec i 0) as [Hneg | Hpos].
    - destruct ((0 <=? i + 2) && (i + 2 <? 2))%Z eqn:Hin; [| reflexivity].
      apply andb_true_iff in Hin. destruct Hin as [Hlow Hhigh].
      apply Z.leb_le in Hlow. lia.
    - destruct ((0 <=? i) && (i <? 2))%Z eqn:Hin; [| reflexivity].
      apply andb_true_iff in Hin. destruct Hin as [Hlow Hhigh].
      apply Z.ltb_lt in Hhigh. lia. }
  rewrite Hget. run_py. rewrite Hhandled. reflexivity.
Qed.

(** X4. A legacy origin string that is not empty decides the origin: the
    origin index is not consulted, be it null or out of range. The context
    is the one the [Context] constructor builds from the context columns. *)
Theorem Events_to_native_legacy_origin_first
    (self : Events.row) (validate : bool) (value : string)
    (o : core.EventOrigin) (fired : datetime) :
  truthy_str (Events.event_data self) = false ->
  Events.origin self = Some value ->
  truthy_str (Some value) = true ->
  EventOrigin_of_value value = Ok o ->
  utc_from_timestamp (Events.time_fired_ts self) = Ok fired ->
  Events.to_native self validate
  = (Ok (Some (core.mkEvent (Events.event_type self) (core.PDict [])
                 (core.Member o) fired
                 (Context_init (Events.context_id self)
                               (Events.context_user_id self)
                               (Events.context_parent_id self)))), []).
Proof.
  intros Hdata Horigin Htruthy Hvalue Hfired. unfold Events.to_native.
  rewrite Hdata, Horigin, Htruthy, Hvalue. run_py. rewrite Hfired. reflexivity.
Qed.

(** X5. The data of an event does not come back from its row: whatever
    event is written with [Events.from_event], the event [Events.to_native]
    reads back from that row has empty data, and reading it logs nothing.
    (The data travels in the shared payload row, which neither method
    touches.) *)
Theorem Events_read_back_without_data
    (E E' : core.Event) (dbevent : Events.row) (validate : bool)
    (l0 l : list log_record) :
  Events.from_event E = (Ok dbevent, l0) ->
  Events.to_native dbevent validate = (Ok (Some E'), l) ->
  core.data E' = core.PDict [] /\ l = [].
Proof.
  unfold Events.from_event.
  destruct (EVENT_ORIGIN_TO_IDX_get (core.origin E)) as [idx | e];
    [rewrite bind_lift_Ok | rewrite bind_lift_Raise; discriminate].
  intros [= <- _].
  rewrite Events_to_native_by_index by reflexivity.
  cbn [Events.origin_idx Events.time_fired_ts
       Events.event_type Events.context_id Events.context_user_id
       Events.context_parent_id].
  destruct (list_getitem EVENT_ORIGIN_ORDER idx) as [o | e];
    run_py.
  - destruct (utc_from_timestamp _) as [fired | e]; cbn.
    + intros [= <- <-]. split; reflexivity.
    + destruct (JSON_DECODE_EXCEPTIONS e); cbn; discriminate.
  - destruct (JSON_DECODE_EXCEPTIONS e); cbn; discriminate.
Qed.

End EventsReadFacts.

Lemma Events_to_native_null_on_decode_error_witness :
  @Events.to_native Reference.platform (Sample.legacy_event_row "{") true
  = (Ok None, [LogException "Error converting to event: %s"]).
Proof.
  apply (@Events_to_native_null_on_decode_error Reference.platform
           (Sample.legacy_event_row "{") true JSONDecodeError); reflexivity.
Defined.

Lemma Events_to_native_origin_of_index_witness :
  @Events.to_native Reference.platform (Sample.event_row (Some (-1)%Z)) true
  = (Ok (Some (core.mkEvent (Some "call_service") (core.PDict [])
                 (core.Member core.remote) Sample.new_year
                 (core.mkContext (core.id Sample.ctx) None None))), []) /\
  @Events.to_native Reference.platform
    (Sample.event_row_without_context (Some 0%Z)) true
  = (Ok (Some (core.mkEvent (Some "call_service") (core.PDict [])
                 (core.Member core.local) Sample.new_year
                 (core.mkContext (Some Reference.ulid) None None))), []).
Proof.
  split.
  - apply (@Events_to_native_origin_of_index Reference.platform
             (Sample.event_row (Some (-1)%Z)) true (-1)%Z Sample.new_year);
      [reflexivity | reflexivity | reflexivity | lia | vm_compute; reflexivity].
  - apply (@Events_to_native_origin_of_index Reference.platform
             (Sample.event_row_without_context (Some 0%Z)) true 0%Z
             Sample.new_year);
      [reflexivity | reflexivity | reflexivity | lia | vm_compute; reflexivity].
Defined.

Lemma Events_to_native_index_out_of_range_witness :
  @Events.to_native Reference.platform (Sample.event_row (Some 2%Z)) true
  = (Raise IndexError, []).
Proof.
  apply (@Events_to_native_index_out_of_range Reference.platform
           (Sample.event_row (Some 2%Z)) true 2%Z);
    [reflexivity | reflexivity | reflexivity | lia | reflexivity].
Defined.

Lemma Events_to_native_legacy_origin_first_witness :
  @Events.to_native Reference.platform (Sample.legacy_event_row "") true
  = (Ok (Some (core.mkEvent (Some "call_service") (core.PDict [])
                 (core.Member core.remote) Sample.new_year
                 (core.mkContext (core.id Sample.ctx) None None))), []).
Proof.
  apply (@Events_to_native_legacy_origin_first Reference.platform
           (Sample.legacy_event_row "") true "REMOTE" core.remote
           Sample.new_year);
    [reflexivity | reflexivity | reflexivity | reflexivity
     | vm_compute; reflexivity].
Defined.

Lemma Events_read_back_without_data_witness :
  core.data
    (core.mkEvent (Some "state_changed") (core.PDict [])
       (core.Member core.local) Sample.new_year
       (core.mkContext (core.id Sample.ctx) None None))
  = core.PDict [] /\ @nil log_record = [].
Proof.
  apply (@Events_read_back_without_data Reference.platform
           Sample.light_turned_on
           (core.mkEvent (Some "state_changed") (core.PDict [])
              (core.Member core.local) Sample.new_year
              (core.mkContext (core.id Sample.ctx) None None))
           (Sample.event_row_of_light_turned_on) true [] []).
  - vm_compute; reflexivity.
  - vm_compute; reflexivity.
Defined.

(** ** Writing state rows *)

Section StatesWriteFacts.
Context `{Platform}.

(** What [States.from_event] returns, by the shape of the event data. *)
Lemma States_from_event_cases (event : core.Event) (dbstate : States.row)
    (l : list log_record) :
  States.from_event event = (Ok dbstate, l) ->
  l = [] /\
  exists (v : core.PyVal) (idx : option Z) (new_state : core.PyVal),
    core.getitem (core.data event) "entity_id" = Ok v /\
    EVENT_ORIGIN_TO_IDX_get (core.origin event) = Ok idx /\
    core.get (core.data event) "new_state" = Ok new_state /\
    States.entity_id dbstate = v /\
    States.context_id dbstate = core.id (core.event_context event) /\
    States.context_user_id dbstate = core.user_id (core.event_context event) /\
    States.context_parent_id dbstate = core.parent_id (core.event_context event) /\
    States.origin_idx dbstate = dict_get EVENT_ORIGIN_TO_IDX (core.origin event) /\
    States.attributes dbstate = None /\
    States.last_changed dbstate = None /\
    States.last_updated dbstate = None /\
    States.event_id dbstate = None /\
    States.state_attributes dbstate = None.
Proof.
  unfold States.from_event.
  destruct (core.getitem (core.data event) "entity_id") as [v | e] eqn:Hid;
    [| rewrite bind_lift_Raise; discriminate].
  rewrite bind_lift_Ok.
  destruct (core.get (core.data event) "new_state") as [new_state | e] eqn:Hnew;
    [| rewrite bind_lift_Raise; discriminate].
  rewrite bind_lift_Ok.
  destruct (EVENT_ORIGIN_TO_IDX_get (core.origin event)) as [idx | e] eqn:Hidx;
    [| rewrite bind_lift_Raise; discriminate].
  rewrite bind_lift_Ok.
  assert (Hfound : idx = dict_get EVENT_ORIGIN_TO_IDX (core.origin event)).
  { unfold EVENT_ORIGIN_TO_IDX_get in Hidx.
    destruct (core.origin event); (discriminate || (injection Hidx as <-; reflexivity)). }
  destruct new_state; try discriminate;
    intros [= <- <-]; (split; [reflexivity |]);
    eexists _, _, _;
    repeat (split; [eassumption || reflexivity |]); reflexivity.
Qed.

(** X6. New rows never carry the legacy columns: every row
    [Events.from_event] returns has null inline event data, a null origin
    string and a null [time_fired] datetime, and every row
    [States.from_event] returns has null inline attributes, null
    [last_changed] and [last_updated] datetimes and a null event
    reference. *)
Theorem from_event_leaves_legacy_columns_null :
  (forall (E : core.Event) (dbevent : Events.row) (l : list log_record),
      Events.from_event E = (Ok dbevent, l) ->
      Events.event_data dbevent = None /\
      Events.origin dbevent = None /\
      Events.time_fired dbevent = None) /\
  (forall (event : core.Event) (dbstate : States.row) (l : list log_record),
      States.from_event event = (Ok dbstate, l) ->
      States.attributes dbstate = None /\
      States.last_changed dbstate = None /\
      States.last_updated dbstate = None /\
      States.event_id dbstate = None).
Proof.
  split.
  - intros E dbevent l. unfold Events.from_event.
    destruct (EVENT_ORIGIN_TO_IDX_get (core.origin E)) as [idx | e];
      [rewrite bind_lift_Ok | rewrite bind_lift_Raise; discriminate].
    intros [= <- _]. repeat split.
  - intros event dbstate l Hwritten.
    apply States_from_event_cases in Hwritten.
    destruct Hwritten as (_ & v & idx & new_state & _ & _ & _ & _ & _ & _ & _ & _
                          & Hattrs & Hchanged & Hupdated & Hevent & _).
    auto.
Qed.

(** X7. Event data that is a dict without the key [entity_id] makes
    [States.from_event] raise [KeyError], whatever else the event holds;
    no row is produced and nothing is logged. *)
Theorem States_from_event_missing_entity_id
    (event : core.Event) (items : list (string * core.PyVal)) :
  core.data event = core.PDict items ->
  dict_get items "entity_id" = None ->
  States.from_event event = (Raise KeyError, []).
Proof.
  intros Hdata Hmissing. unfold States.from_event, core.getitem.
  rewrite Hdata, Hmissing. reflexivity.
Qed.

(** X8. Every row [States.from_event] returns carries the event's context
    triple, the index of the event's origin in the fixed mapping, and, as
    it is, the object found under the key [entity_id]; writing the row
    logs nothing. This holds for a removal as for a state change. *)
Theorem States_from_event_copies_context
    (event : core.Event) (dbstate : States.row) (l : list log_record) :
  States.from_event event = (Ok dbstate, l) ->
  l = [] /\
  States.context_id dbstate = core.id (core.event_context event) /\
  States.context_user_id dbstate = core.user_id (core.event_context event) /\
  States.context_parent_id dbstate = core.parent_id (core.event_context event) /\
  States.origin_idx dbstate = dict_get EVENT_ORIGIN_TO_IDX (core.origin event) /\
  core.getitem (core.data event) "entity_id" = Ok (States.entity_id dbstate).
Proof.
  intros Hwritten. apply States_from_event_cases in Hwritten.
  destruct Hwritten as (Hlog & v & idx & new_state & Hid & _ & _ & Heid & Hctx
                        & Huser & Hparent & Horigin & _).
  repeat (split; [assumption |]).
  rewrite Heid. exact Hid.
Qed.

End StatesWriteFacts.

Lemma from_event_leaves_legacy_columns_null_witness :
  (Events.event_data Sample.event_row_of_light_turned_on = None /\
   Events.origin Sample.event_row_of_light_turned_on = None /\
   Events.time_fired Sample.event_row_of_light_turned_on = None) /\
  (States.attributes Sample.fresh_light_row = None /\
   States.last_changed Sample.fresh_light_row = None /\
   States.last_updated Sample.fresh_light_row = None /\
   States.event_id Sample.fresh_light_row = None).
Proof.
  destruct (@from_event_leaves_legacy_columns_null Reference.platform)
    as [Hevents Hstates].
  split.
  - apply (Hevents Sample.light_turned_on Sample.event_row_of_light_turned_on []).
    vm_compute; reflexivity.
  - apply (Hstates Sample.light_turned_on Sample.fresh_light_row []).
    vm_compute; reflexivity.
Defined.

Lemma States_from_event_missing_entity_id_witness :
  @States.from_event Reference.platform Sample.stray_origin_event
  = (Raise KeyError, []).
Proof.
  apply (@States_from_event_missing_entity_id Reference.platform
           Sample.stray_origin_event []); reflexivity.
Defined.

Lemma States_from_event_copies_context_witness :
  @nil log_record = [] /\
  States.context_id Sample.fresh_light_row = core.id Sample.ctx /\
  States.context_user_id Sample.fresh_light_row = None /\
  States.context_parent_id Sample.fresh_light_row = None /\
  States.origin_idx Sample.fresh_light_row = Some 0%Z /\
  core.getitem (core.data Sample.light_turned_on) "entity_id"
  = Ok (States.entity_id Sample.fresh_light_row).
Proof.
  apply (@States_from_event_copies_context Reference.platform
           Sample.light_turned_on Sample.fresh_light_row []).
  vm_compute; reflexivity.
Defined.

(** ** Reading state rows *)

Section StatesReadFacts.
Context `{Platform}.

(** X9. A state whose [last_changed] equals its [last_updated], written
    with [States.from_event] and read back with [States.to_native], comes
    back with both timestamps equal to the instant [utc_from_timestamp]
    gives for the stored [last_updated_ts], with the context the [Context]
    constructor builds from the event's context triple (the event's own
    context when its id is not empty), and with what the [State]
    constructor makes of the entity id, the state string and an empty
    attribute dict: the attributes are not in the row. *)
Theorem States_read_back_unchanged_state
    (event : core.Event) (v : core.PyVal) (idx : option Z)
    (st : core.State) (validate : bool) (t : datetime)
    (fields : string * string * list (string * core.PyVal)) :
  core.getitem (core.data event) "entity_id" = Ok v ->
  EVENT_ORIGIN_TO_IDX_get (core.origin event) = Ok idx ->
  core.get (core.data event) "new_state" = Ok (core.PState st) ->
  core.last_changed st = core.last_updated st ->
  utc_from_timestamp
    (Some (or_0 (Some (utc_to_timestamp (core.last_updated st))))) = Ok t ->
  State_init v (Some (core.state st)) (core.PDict []) validate = Ok fields ->
  (exists dbstate : States.row,
      States.from_event event = (Ok dbstate, []) /\
      States.to_native dbstate validate
      = (Ok (Some (core.mkState fields.1.1 fields.1.2 fields.2 t t
                     (Context_init (core.id (core.event_context event))
                                   (core.user_id (core.event_context event))
                                   (core.parent_id (core.event_context event))))),
         [])) /\
  (truthy_str (core.id (core.event_context event)) = true ->
   Context_init (core.id (core.event_context event))
                (core.user_id (core.event_context event))
                (core.parent_id (core.event_context event))
   = core.event_context event).
Proof.
  intros Hid Hidx Hnew Hsame Hts Hinit.
  split; [| apply Context_init_truthy].
  unfold States.from_event.
  rewrite Hid, bind_lift_Ok, Hnew, bind_lift_Ok, Hidx, bind_lift_Ok.
  eexists; split; [reflexivity |].
  rewrite decide_True by (symmetry; exact Hsame).
  rewrite (States_to_native_parsed _ _ (core.PDict [])) by reflexivity.
  cbn [States.with_state_and_timestamps States.last_changed_ts
       States.last_updated_ts States.entity_id States.state States.context_id
       States.context_user_id States.context_parent_id orb].
  rewrite Hts, bind_lift_Ok. unfold bind at 1, ret at 1. cbn [fst snd].
  rewrite Hinit, bind_lift_Ok. reflexivity.
Qed.

(** X10. A removal, written with [States.from_event] and read back with
    [States.to_native], comes back as a state with the empty string for a
    state (as the [State] constructor takes it), no attributes, both
    timestamps at the instant [utc_from_timestamp] gives for the event's
    fired-at, and the context the [Context] constructor builds from the
    event's context triple (the event's own context when its id is not
    empty). *)
Theorem States_read_back_removal
    (event : core.Event) (v : core.PyVal) (idx : option Z)
    (validate : bool) (t : datetime)
    (fields : string * string * list (string * core.PyVal)) :
  core.getitem (core.data event) "entity_id" = Ok v ->
  EVENT_ORIGIN_TO_IDX_get (core.origin event) = Ok idx ->
  core.get (core.data event) "new_state" = Ok core.PNone ->
  utc_from_timestamp
    (Some (or_0 (Some (utc_to_timestamp (core.time_fired event))))) = Ok t ->
  State_init v (Some "") (core.PDict []) validate = Ok fields ->
  (exists dbstate : States.row,
      States.from_event event = (Ok dbstate, []) /\
      States.to_native dbstate validate
      = (Ok (Some (core.mkState fields.1.1 fields.1.2 fields.2 t t
                     (Context_init (core.id (core.event_context event))
                                   (core.user_id (core.event_context event))
                                   (core.parent_id (core.event_context event))))),
         [])) /\
  (truthy_str (core.id (core.event_context event)) = true ->
   Context_init (core.id (core.event_context event))
                (core.user_id (core.event_context event))
                (core.parent_id (core.event_context event))
   = core.event_context event).
Proof.
  intros Hid Hidx Hnew Hts Hinit.
  split; [| apply Context_init_truthy].
  unfold States.from_event.
  rewrite Hid, bind_lift_Ok, Hnew, bind_lift_Ok, Hidx, bind_lift_Ok.
  eexists; split; [reflexivity |].
  rewrite (States_to_native_parsed _ _ (core.PDict [])) by reflexivity.
  cbn [States.with_state_and_timestamps States.last_changed_ts
       States.last_updated_ts States.entity_id States.state States.context_id
       States.context_user_id States.context_parent_id orb].
  rewrite Hts, bind_lift_Ok. unfold bind at 1, ret at 1. cbn [fst snd].
  rewrite Hinit, bind_lift_Ok. reflexivity.
Qed.

(** X11. A row with neither [last_updated_ts] nor [last_changed_ts] is
    read with both timestamps at [utc_from_timestamp(0)], the epoch: the
    [last_updated] and [last_changed] datetime columns are not consulted,
    whatever they hold. The context is the one the [Context] constructor
    builds from the context columns. *)
Theorem States_to_native_epoch_without_timestamps
    (self : States.row) (validate : bool) (attrs : core.PyVal) (t : datetime)
    (fields : string * string * list (string * core.PyVal)) :
  States.last_updated_ts self = None ->
  States.last_changed_ts self = None ->
  (if truthy_str (States.attributes self)
   then json_loads (States.attributes self)
   else Ok (core.PDict [])) = Ok attrs ->
  utc_from_timestamp (Some 0%float) = Ok t ->
  State_init (States.entity_id self) (States.state self) attrs validate
  = Ok fields ->
  States.to_native self validate
  = (Ok (Some (core.mkState fields.1.1 fields.1.2 fields.2 t t
                 (Context_init (States.context_id self)
                               (States.context_user_id self)
                               (States.context_parent_id self)))), []).
Proof.
  intros Hupdated Hchanged Hparse Hts Hinit.
  rewrite (States_to_native_parsed _ _ _ Hparse), Hupdated, Hchanged.
  cbn [orb or_0]. rewrite Hts, bind_lift_Ok. unfold bind at 1, ret at 1.
  cbn [fst snd]. rewrite Hinit, bind_lift_Ok. reflexivity.
Qed.

(** X12. A row whose [last_changed_ts] is set and not [==] to its
    [last_updated_ts] is read with two timestamps, each converted from its
    own column. The context is the one the [Context] constructor builds
    from the context columns: null context columns are read as a context
    with a newly drawn ULID for an id. *)
Theorem States_to_native_keeps_distinct_timestamps
    (self : States.row) (validate : bool) (attrs : core.PyVal)
    (changed updated : float) (t_changed t_updated : datetime)
    (fields : string * string * list (string * core.PyVal)) :
  States.last_changed_ts self = Some changed ->
  States.last_updated_ts self = Some updated ->
  PrimFloat.eqb changed updated = false ->
  (if truthy_str (States.attributes self)
   then json_loads (States.attributes self)
   else Ok (core.PDict [])) = Ok attrs ->
  utc_from_timestamp (Some (or_0 (Some updated))) = Ok t_updated ->
  utc_from_timestamp (Some (or_0 (Some changed))) = Ok t_changed ->
  State_init (States.entity_id self) (States.state self) attrs validate
  = Ok fields ->
  States.to_native self validate
  = (Ok (Some (core.mkState fields.1.1 fields.1.2 fields.2 t_changed t_updated
                 (Context_init (States.context_id self)
                               (States.context_user_id self)
                               (States.context_parent_id self)))), []).
Proof.
  intros Hchanged Hupdated Hdiffer Hparse Htu Htc Hinit.
  rewrite (States_to_native_parsed _ _ _ Hparse), Hchanged, Hupdated.
  cbn [orb float_eq]. rewrite Hdiffer, Htu, bind_lift_Ok, Htc, bind_lift_Ok.
  unfold bind at 1, ret at 1. cbn [fst snd].
  rewrite Hinit, bind_lift_Ok. reflexivity.
Qed.

End StatesReadFacts.

Lemma States_read_back_unchanged_state_witness :
  exists dbstate : States.row,
    @States.from_event Reference.platform Sample.light_turned_on
    = (Ok dbstate, []) /\
    @States.to_native Reference.platform dbstate true
    = (Ok (Some (core.mkState "light.x" "on" [] Sample.new_year Sample.new_year
                   Sample.ctx)), []).
Proof.
  refine (proj1 (@States_read_back_unchanged_state Reference.platform
                   Sample.light_turned_on (core.PStr "light.x") (Some 0%Z)
                   Sample.light_on true Sample.new_year ("light.x", "on", [])
                   _ _ _ _ _ _));
    try reflexivity; vm_compute; reflexivity.
Defined.

Lemma States_read_back_removal_witness :
  exists dbstate : States.row,
    @States.from_event Reference.platform Sample.light_removed
    = (Ok dbstate, []) /\
    @States.to_native Reference.platform dbstate true
    = (Ok (Some (core.mkState "light.x" "" [] Sample.new_year Sample.new_year
                   Sample.ctx)), []).
Proof.
  refine (proj1 (@States_read_back_removal Reference.platform
                   Sample.light_removed (core.PStr "light.x") (Some 0%Z)
                   true Sample.new_year ("light.x", "", [])
                   _ _ _ _ _));
    try reflexivity; vm_compute; reflexivity.
Defined.

Lemma States_to_native_epoch_without_timestamps_witness :
  @States.to_native Reference.platform (Sample.legacy_row "light.x" 2) true
  = (Ok (Some (core.mkState "light.x" "on" [] 0%Z 0%Z
                 (core.mkContext (core.id Sample.ctx) None None))), []).
Proof.
  apply (@States_to_native_epoch_without_timestamps Reference.platform
           (Sample.legacy_row "light.x" 2) true (core.PDict []) 0%Z
           ("light.x", "on", []));
    try reflexivity; vm_compute; reflexivity.
Defined.

Lemma States_to_native_keeps_distinct_timestamps_witness :
  @States.to_native Reference.platform Sample.light_row_changed_earlier true
  = (Ok (Some (core.mkState "light.x" "on" []
                 (Sample.new_year - Sample.seconds 100)%Z Sample.new_year
                 (core.mkContext (core.id Sample.ctx) None None))), []) /\
  @States.to_native Reference.platform Sample.light_row_without_context true
  = (Ok (Some (core.mkState "light.x" "on" []
                 (Sample.new_year - Sample.seconds 100)%Z Sample.new_year
                 (core.mkContext (Some Reference.ulid) None None))), []).
Proof.
  split.
  2: {
    apply (@States_to_native_keeps_distinct_timestamps Reference.platform
             Sample.light_row_without_context true (core.PDict [])
             1704067100%float 1704067200%float
             (Sample.new_year - Sample.seconds 100)%Z Sample.new_year
             ("light.x", "on", []));
      try reflexivity; vm_compute; reflexivity. }
  apply (@States_to_native_keeps_distinct_timestamps Reference.platform
           Sample.light_row_changed_earlier true (core.PDict [])
           1704067100%float 1704067200%float
           (Sample.new_year - Sample.seconds 100)%Z Sample.new_year
           ("light.x", "on", []));
    try reflexivity; vm_compute; reflexivity.
Defined.

(** ** The attribute payload *)

Section AttributePayloadFacts.
Context `{Platform}.

(** X13. Whatever the event, the exclusions and the dialect, the bytes
    [shared_attrs_bytes_from_event] returns never take more than
    [MAX_STATE_ATTRS_BYTES] (16384) bytes. *)
Theorem shared_attrs_bytes_within_limit
    (event : core.Event) (exclude_attrs_by_domain : gmap string (gset string))
    (dialect : option SupportedDialect) (b : bytes) (l : list log_record) :
  StateAttributes.shared_attrs_bytes_from_event
    event exclude_attrs_by_domain dialect = (Ok b, l) ->
  (len b <= MAX_STATE_ATTRS_BYTES)%Z.
Proof.
  unfold StateAttributes.shared_attrs_bytes_from_event.
  destruct (core.get (core.data event) "new_state") as [state | e];
    [rewrite bind_lift_Ok | rewrite bind_lift_Raise; discriminate].
  destruct state as [| | | | | | | st]; try discriminate.
  - intros [= <- _]. vm_compute. discriminate.
  - destruct (split_entity_id (core.entity_id st)) as [parts | e];
      [rewrite bind_lift_Ok | rewrite bind_lift_Raise; discriminate].
    cbv zeta.
    match goal with
    | |- context [lift ?encoded] =>
        destruct encoded as [bytes_result | e];
          [rewrite bind_lift_Ok | rewrite bind_lift_Raise; discriminate]
    end.
    destruct (len bytes_result >? MAX_STATE_ATTRS_BYTES)%Z eqn:Hsize.
    + run_py. intros [= <- _]. vm_compute. discriminate.
    + intros [= <- _]. destruct (Z.gtb_spec (len bytes_result) MAX_STATE_ATTRS_BYTES);
        [discriminate | lia].
Qed.

(** X14. Only an oversized payload is replaced by the empty object. For a
    non-null new state, an exception raised by [split_entity_id] on the
    state's entity id, or by the encoder on the kept attributes, reaches the
    caller as it is, and nothing is logged. *)
Theorem shared_attrs_bytes_errors_propagate
    (event : core.Event) (st : core.State)
    (exclude_attrs_by_domain : gmap string (gset string))
    (dialect : option SupportedDialect) (e : exn) :
  core.get (core.data event) "new_state" = Ok (core.PState st) ->
  (split_entity_id (core.entity_id st) = Raise e ->
   StateAttributes.shared_attrs_bytes_from_event
     event exclude_attrs_by_domain dialect = (Raise e, [])) /\
  (forall parts : string * string,
      split_entity_id (core.entity_id st) = Ok parts ->
      (if decide (dialect = Some PSQL_DIALECT)
       then json_bytes_strip_null else json_bytes)
        (core.PDict
           (StateAttributes.without_excluded
              (default ∅ (exclude_attrs_by_domain !! parts.1)
                 ∪ ALL_DOMAIN_EXCLUDE_ATTRS)
              (core.attributes st))) = Raise e ->
      StateAttributes.shared_attrs_bytes_from_event
        event exclude_attrs_by_domain dialect = (Raise e, [])).
Proof.
  intros Hnew. unfold StateAttributes.shared_attrs_bytes_from_event.
  rewrite Hnew, bind_lift_Ok. split.
  - intros Hsplit. rewrite Hsplit. reflexivity.
  - intros parts Hsplit Hencoded. rewrite Hsplit, bind_lift_Ok. cbv zeta.
    rewrite Hencoded. reflexivity.
Qed.

(** X15. Dropping the excluded keys keeps the other attributes in their
    order, and changes nothing when no key of the state is excluded. *)
Theorem without_excluded_keeps_order
    (exclude_attrs : gset string) (attributes : list (string * core.PyVal)) :
  sublist (StateAttributes.without_excluded exclude_attrs attributes) attributes /\
  ((forall kv : string * core.PyVal, kv ∈ attributes -> kv.1 ∉ exclude_attrs) ->
   StateAttributes.without_excluded exclude_attrs attributes = attributes).
Proof.
  unfold StateAttributes.without_excluded. split.
  - apply sublist_filter.
  - induction attributes as [| kv rest IH]; intros Hnone; [reflexivity |].
    rewrite filter_cons, decide_True.
    + f_equal. apply IH. intros kv' Hin. apply Hnone. right. exact Hin.
    + apply Hnone. left.
Qed.

End AttributePayloadFacts.

Lemma shared_attrs_bytes_within_limit_witness :
  (len Sample.sensor_bytes <= MAX_STATE_ATTRS_BYTES)%Z.
Proof.
  apply (@shared_attrs_bytes_within_limit Reference.platform
           Sample.sensor_changed Sample.exclusions (Some SQLITE)
           Sample.sensor_bytes []).
  vm_compute; reflexivity.
Defined.

Lemma shared_attrs_bytes_errors_propagate_witness :
  @StateAttributes.shared_attrs_bytes_from_event Reference.platform
    Sample.nameless_changed Sample.exclusions None
  = (Raise ValueError, []) /\
  @StateAttributes.shared_attrs_bytes_from_event Reference.platform
    Sample.thermometer_changed Sample.exclusions None
  = (Raise TypeError, []).
Proof.
  split.
  - destruct (@shared_attrs_bytes_errors_propagate Reference.platform
                Sample.nameless_changed Sample.nameless_state Sample.exclusions
                None ValueError eq_refl) as [Hsplit _].
    apply Hsplit. reflexivity.
  - destruct (@shared_attrs_bytes_errors_propagate Reference.platform
                Sample.thermometer_changed Sample.thermometer_state
                Sample.exclusions None TypeError eq_refl) as [_ Hencoder].
    apply (Hencoder ("sensor", "temp")); [reflexivity | vm_compute; reflexivity].
Defined.

Lemma without_excluded_keeps_order_witness :
  StateAttributes.without_excluded {[ "options" ]}
    (core.attributes Sample.light_on)
  = core.attributes Sample.light_on.
Proof.
  destruct (without_excluded_keeps_order {[ "options" ]}
              (core.attributes Sample.light_on)) as [_ Hunchanged].
  apply Hunchanged. intros kv Hin.
  apply list_elem_of_singleton in Hin. subst kv.
  apply not_elem_of_singleton. discriminate.
Defined.

(** ** More on the entity ids of a recorder run *)

Section RecorderRunsMoreFacts.

Lemma filter_twice {A} (f g : A -> bool) (l : list A) :
  List.filter f (List.filter g l) = List.filter (fun x => g x && f x) l.
Proof.
  induction l as [| a l IH]; [reflexivity |]. cbn.
  destruct (g a); cbn; [destruct (f a) |]; rewrite IH; reflexivity.
Qed.

(** The query of [entity_ids] as one selection over the states. *)
Lemma entity_ids_query (self : RecorderRuns.row)
    (states : RecorderRuns.Session) (point_in_time : option datetime) :
  RecorderRuns.entity_ids self (Some states) point_in_time
  = Ok (remove_dups
          (map States.entity_id
             (List.filter
                (fun s =>
                   sql_ge (States.last_updated s) (RecorderRuns.start self)
                   && match point_in_time, RecorderRuns.end_ self with
                      | Some _, _ => sql_lt (States.last_updated s) point_in_time
                      | None, Some _ =>
                          sql_lt (States.last_updated s) (RecorderRuns.end_ self)
                      | None, None => true
                      end)
                states))).
Proof.
  unfold RecorderRuns.entity_ids.
  destruct point_in_time as [p |];
    [| destruct (RecorderRuns.end_ self) as [e |]];
    rewrite ?filter_twice; try reflexivity.
  do 3 f_equal. apply filter_ext. intros s. rewrite andb_true_r. reflexivity.
Qed.

(** X16. Inside the run the code and the specification select the same
    entity ids: when [point_in_time] is given and is not after the end of
    the run (or, for an open run, not after the instant of the call), or
    when it is not given and the run has ended, [entity_ids] returns the
    distinct entity ids of the states last updated in
    [[run.start, min(point_in_time, run.end-or-now))]. *)
Theorem RecorderRuns_entity_ids_within_run
    (self : RecorderRuns.row) (states : RecorderRuns.Session)
    (point_in_time : option datetime) (now : datetime) :
  match point_in_time with
  | Some p => (p <= default now (RecorderRuns.end_ self))%Z
  | None => RecorderRuns.end_ self <> None
  end ->
  RecorderRuns.entity_ids self (Some states) point_in_time
  = Ok (RecorderRuns.entity_ids_active_during self states point_in_time now).
Proof.
  intros Hinside. rewrite entity_ids_query.
  unfold RecorderRuns.entity_ids_active_during.
  do 3 f_equal. apply filter_ext. intros s. f_equal.
  destruct point_in_time as [p |].
  - rewrite Z.min_l by exact Hinside. reflexivity.
  - destruct (RecorderRuns.end_ self) as [e |]; [reflexivity | contradiction].
Qed.

(** X17. A later [point_in_time] never loses an entity: every entity id
    returned for [p] is returned for any [p'] at or after [p]. *)
Theorem RecorderRuns_entity_ids_monotone
    (self : RecorderRuns.row) (states : RecorderRuns.Session)
    (p p' : datetime) :
  (p <= p')%Z ->
  exists ids ids' : list core.PyVal,
    RecorderRuns.entity_ids self (Some states) (Some p) = Ok ids /\
    RecorderRuns.entity_ids self (Some states) (Some p') = Ok ids' /\
    forall e : core.PyVal, e ∈ ids -> e ∈ ids'.
Proof.
  intros Hle. rewrite !entity_ids_query.
  eexists _, _. split; [reflexivity |]. split; [reflexivity |].
  intros e. rewrite !elem_of_remove_dups.
  change (map States.entity_id ?l) with (States.entity_id <$> l).
  rewrite !list_elem_of_fmap.
  intros (s & -> & Hs). exists s. split; [reflexivity |].
  apply list_elem_of_In, filter_In in Hs. destruct Hs as [Hin Hselected].
  apply list_elem_of_In, filter_In. split; [exact Hin |].
  apply andb_true_iff in Hselected. destruct Hselected as [Hge Hlt].
  rewrite Hge. cbn.
  apply sql_lt_true in Hlt. destruct Hlt as (u & q & Hu & [= <-] & Hlt).
  apply sql_lt_true. exists u, p'. repeat split; [exact Hu | lia].
Qed.

End RecorderRunsMoreFacts.

Section RecorderRunsNewRowsFacts.
Context `{Platform}.

(** X18. [entity_ids] selects on the [last_updated] datetime column, which
    [States.from_event] leaves null: over a states table that holds only
    rows written by [States.from_event], [entity_ids] returns no entity id,
    for any run and any [point_in_time]. *)
Theorem RecorderRuns_entity_ids_skips_new_rows
    (self : RecorderRuns.row) (states : RecorderRuns.Session)
    (point_in_time : option datetime) :
  Forall (fun s => exists (event : core.Event) (l : list log_record),
              States.from_event event = (Ok s, l)) states ->
  RecorderRuns.entity_ids self (Some states) point_in_time = Ok [].
Proof.
  intros Hwritten. rewrite entity_ids_query.
  replace (List.filter _ states) with (@nil States.row); [reflexivity |].
  symmetry. induction Hwritten as [| s rest (event & l & Hs) _ IH];
    [reflexivity |].
  cbn. apply States_from_event_cases in Hs.
  destruct Hs as (_ & v & eid & new_state & _ & _ & _ & _ & _ & _ & _ & _ & _ & _
                  & Hupdated & _).
  rewrite Hupdated. cbn. exact IH.
Qed.

End RecorderRunsNewRowsFacts.

Lemma RecorderRuns_entity_ids_within_run_witness :
  RecorderRuns.entity_ids Sample.short_run (Some Sample.recorded_states)
    (Some (Sample.new_year + Sample.seconds 6)%Z)
  = Ok (RecorderRuns.entity_ids_active_during Sample.short_run
          Sample.recorded_states (Some (Sample.new_year + Sample.seconds 6)%Z)
          (Sample.new_year + Sample.seconds 30)%Z).
Proof.
  apply (RecorderRuns_entity_ids_within_run Sample.short_run
           Sample.recorded_states (Some (Sample.new_year + Sample.seconds 6)%Z)
           (Sample.new_year + Sample.seconds 30)%Z).
  vm_compute; discriminate.
Defined.

Lemma RecorderRuns_entity_ids_monotone_witness :
  exists ids ids' : list core.PyVal,
    RecorderRuns.entity_ids Sample.short_run (Some Sample.recorded_states)
      (Some (Sample.new_year + Sample.seconds 6)%Z) = Ok ids /\
    RecorderRuns.entity_ids Sample.short_run (Some Sample.recorded_states)
      (Some (Sample.new_year + Sample.seconds 20)%Z) = Ok ids' /\
    forall e : core.PyVal, e ∈ ids -> e ∈ ids'.
Proof.
  apply (RecorderRuns_entity_ids_monotone Sample.short_run
           Sample.recorded_states (Sample.new_year + Sample.seconds 6)%Z
           (Sample.new_year + Sample.seconds 20)%Z).
  vm_compute; discriminate.
Defined.

Lemma RecorderRuns_entity_ids_skips_new_rows_witness :
  RecorderRuns.entity_ids Sample.short_run (Some [Sample.fresh_light_row]) None
  = Ok [].
Proof.
  apply (@RecorderRuns_entity_ids_skips_new_rows Reference.platform
           Sample.short_run [Sample.fresh_light_row] None).
  constructor; [| constructor].
  exists Sample.light_turned_on, []. vm_compute; reflexivity.
Defined.

(** ** Rows written for one event *)

Section WrittenRowsFacts.
Context `{Platform}.

(** X19. The row of a removal is not set apart from every other row: an
    event whose new state has the empty string for a state, and was last
    changed and last updated at the instant a removal is fired, is written
    by [States.from_event] as the very row of that removal (same entity id,
    context and origin given). *)
Theorem States_from_event_removal_not_distinct
    (removal change : core.Event) (st : core.State) :
  core.getitem (core.data removal) "entity_id"
  = core.getitem (core.data change) "entity_id" ->
  core.get (core.data removal) "new_state" = Ok core.PNone ->
  core.get (core.data change) "new_state" = Ok (core.PState st) ->
  core.state st = "" ->
  core.last_changed st = core.last_updated st ->
  core.last_updated st = core.time_fired removal ->
  core.event_context change = core.event_context removal ->
  core.origin change = core.origin removal ->
  States.from_event change = States.from_event removal.
Proof.
  intros Hid Hremoved Hchanged Hblank Hsame Hinstant Hctx Horigin.
  unfold States.from_event.
  rewrite Hid, Hremoved, Hchanged, Hctx, Horigin.
  destruct (core.getitem (core.data change) "entity_id") as [v | e];
    [rewrite !bind_lift_Ok | reflexivity].
  destruct (EVENT_ORIGIN_TO_IDX_get (core.origin removal)) as [idx | e];
    [rewrite !bind_lift_Ok | reflexivity].
  rewrite decide_True by (symmetry; exact Hsame).
  rewrite Hblank, Hinstant. reflexivity.
Qed.

(** X20. An event for which [States.from_event] returns a row is one for
    which [Events.from_event] returns a row too, logging nothing, and the
    two rows agree on the context triple and on the origin index. *)
Theorem from_event_rows_share_context
    (event : core.Event) (dbstate : States.row) (l : list log_record) :
  States.from_event event = (Ok dbstate, l) ->
  exists dbevent : Events.row,
    Events.from_event event = (Ok dbevent, []) /\
    States.context_id dbstate = Events.context_id dbevent /\
    States.context_user_id dbstate = Events.context_user_id dbevent /\
    States.context_parent_id dbstate = Events.context_parent_id dbevent /\
    States.origin_idx dbstate = Events.origin_idx dbevent.
Proof.
  intros Hwritten. apply States_from_event_cases in Hwritten.
  destruct Hwritten as (_ & v & idx & new_state & _ & Hidx & _ & _ & Hctx & Huser
                        & Hparent & Horigin & _).
  unfold Events.from_event. rewrite Hidx, bind_lift_Ok.
  eexists; split; [reflexivity |]. cbn.
  rewrite Hctx, Huser, Hparent, Horigin.
  repeat split.
  unfold EVENT_ORIGIN_TO_IDX_get in Hidx.
  destruct (core.origin event);
    (discriminate || (injection Hidx as <-; reflexivity)).
Qed.

End WrittenRowsFacts.

Lemma States_from_event_removal_not_distinct_witness :
  @States.from_event Reference.platform Sample.light_blanked
  = @States.from_event Reference.platform Sample.light_removed.
Proof.
  apply (@States_from_event_removal_not_distinct Reference.platform
           Sample.light_removed Sample.light_blanked Sample.light_blank);
    reflexivity.
Defined.

Lemma from_event_rows_share_context_witness :
  exists dbevent : Events.row,
    @Events.from_event Reference.platform Sample.light_turned_on
    = (Ok dbevent, []) /\
    States.context_id Sample.fresh_light_row = Events.context_id dbevent /\
    States.context_user_id Sample.fresh_light_row
    = Events.context_user_id dbevent /\
    States.context_parent_id Sample.fresh_light_row
    = Events.context_parent_id dbevent /\
    States.origin_idx Sample.fresh_light_row = Events.origin_idx dbevent.
Proof.
  apply (@from_event_rows_share_context Reference.platform
           Sample.light_turned_on Sample.fresh_light_row []).
  vm_compute; reflexivity.
Defined.
